(** * ST7735 driver for the CH32V003 (Examples/DrawTest/st7735.c)

    A shallow embedding of the driver's protocol layer and graphics
    primitives, and the properties of the specification that are stated
    about them.

    The driver talks to the panel through a handful of hardware
    operations (the DC and CS lines, the SPI data register and a circular
    DMA channel).  The embedding records every such operation, in order,
    on a bus log that is part of the state; the driver's static variables
    (cursor, colours, DMA scratch buffer) are the rest of the state. *)

From Stdlib Require Import ZArith Lia String Ascii.
From Equations Require Import Equations.
From stdpp Require Import base tactics option list.

Open Scope Z_scope.

(** ** Machine integers

    The C integer types of the driver, as [Z] with the wrap-around written
    out.  Arithmetic on operands narrower than [int] is done in [int]
    (32 bits on the CH32V003) and wraps only when the result is stored
    back or passed as a narrower parameter. *)

Definition u8 (z : Z) : Z := z mod 2 ^ 8.
Definition u16 (z : Z) : Z := z mod 2 ^ 16.
Definition i16 (z : Z) : Z := (z + 2 ^ 15) mod 2 ^ 16 - 2 ^ 15.
Definition i32 (z : Z) : Z := (z + 2 ^ 31) mod 2 ^ 32 - 2 ^ 31.

Definition is_u16 (z : Z) : Prop := 0 <= z < 2 ^ 16.
Definition is_i16 (z : Z) : Prop := - 2 ^ 15 <= z < 2 ^ 15.

(** ** Hardware operations seen on the bus *)

Inductive event : Type :=
| DC_high                                   (* GPIOC->BSHR |= 1 << PIN_DC   *)
| DC_low                                    (* GPIOC->BCR  |= 1 << PIN_DC   *)
| CS_low                                    (* GPIOC->BCR  |= 1 << PIN_CS   *)
| CS_high                                   (* GPIOC->BSHR |= 1 << PIN_CS   *)
| Byte (data : Z)                           (* SPI1->DATAR = data           *)
| Dma (data : list Z) (size repeat : Z).    (* DMA1_Channel3, circular mode *)

(** The bytes a bus operation puts on the MOSI line: a circular DMA
    transfer sends its [size] bytes [repeat] times over. *)
Definition streamed (e : event) : list Z :=
  match e with
  | Byte b => [b]
  | Dma data _ repeat => mjoin (replicate (Z.to_nat repeat) data)
  | _ => []
  end.

(** ** Driver state: the static variables of st7735.c and the bus log *)

Record state : Type := mkState {
  _cursor_x : Z;
  _cursor_y : Z;
  _color : Z;
  _bg_color : Z;
  buffer : list Z;        (* static uint8_t buffer[ST7735_WIDTH << 1] *)
  str : list Z;           (* static char str[12] of tft_print_number  *)
  bus : list event
}.

Definition set_cursor_x (v : Z) (st : state) : state :=
  mkState v (_cursor_y st) (_color st) (_bg_color st) (buffer st) (str st) (bus st).
Definition set_cursor_y (v : Z) (st : state) : state :=
  mkState (_cursor_x st) v (_color st) (_bg_color st) (buffer st) (str st) (bus st).
Definition set_color (v : Z) (st : state) : state :=
  mkState (_cursor_x st) (_cursor_y st) v (_bg_color st) (buffer st) (str st) (bus st).
Definition set_bg_color (v : Z) (st : state) : state :=
  mkState (_cursor_x st) (_cursor_y st) (_color st) v (buffer st) (str st) (bus st).
Definition set_buffer (b : list Z) (st : state) : state :=
  mkState (_cursor_x st) (_cursor_y st) (_color st) (_bg_color st) b (str st) (bus st).
Definition set_str (b : list Z) (st : state) : state :=
  mkState (_cursor_x st) (_cursor_y st) (_color st) (_bg_color st) (buffer st) b (bus st).
Definition set_bus (t : list event) (st : state) : state :=
  mkState (_cursor_x st) (_cursor_y st) (_color st) (_bg_color st) (buffer st) (str st) t.

(** ** The monad of driver code

    A call either returns, or stores outside the scratch buffer
    (undefined behaviour in C, [Fault] here), or is still looping when the
    fuel given to an unbounded loop is used up ([OutOfFuel]). *)

Inductive result (A : Type) : Type :=
| Done (a : A) (st : state)
| Fault
| OutOfFuel.
Arguments Done {A} a st.
Arguments Fault {A}.
Arguments OutOfFuel {A}.

Definition M (A : Type) : Type := state -> result A.

#[global] Instance M_ret : MRet M := fun A a st => Done a st.
#[global] Instance M_bind : MBind M := fun A B k m st =>
  match m st with
  | Done a st' => k a st'
  | Fault => Fault
  | OutOfFuel => OutOfFuel
  end.

Definition emit (e : event) : M unit :=
  fun st => Done tt (set_bus (bus st ++ [e]) st).

(** [buffer[i] = v] on the static [uint8_t buffer[ST7735_WIDTH << 1]]. *)
Definition buffer_store (i v : Z) : M unit :=
  fun st =>
    if decide (0 <= i < Z.of_nat (length (buffer st)))
    then Done tt (set_buffer (<[Z.to_nat i := u8 v]> (buffer st)) st)
    else Fault.

(** [str[i] = v] on the static [char str[12]]; [char] is unsigned on the
    RISC-V target. *)
Definition str_store (i v : Z) : M unit :=
  fun st =>
    if decide (0 <= i < Z.of_nat (length (str st)))
    then Done tt (set_str (<[Z.to_nat i := u8 v]> (str st)) st)
    else Fault.

Definition get {A : Type} (f : state -> A) : M A := fun st => Done (f st) st.
Definition modify (f : state -> state) : M unit := fun st => Done tt (f st).

(** [for (i = from; i < from + n; i++) acc = body i acc], for loops whose
    counter is not touched by the body and cannot wrap before the test
    fails. *)
Fixpoint for_range {A : Type} (n : nat) (from : Z) (body : Z -> A -> M A) (acc : A)
  : M A :=
  match n with
  | O => mret acc
  | S n' => acc' ← body from acc; for_range n' (from + 1) body acc'
  end.

(** Command bytes *)
Definition ST7735_CASET : Z := 0x2A.
Definition ST7735_RASET : Z := 0x2B.
Definition ST7735_RAMWR : Z := 0x2C.

(** Characters, as the codes a C [char] holds. *)
Definition chars (s : string) : list Z :=
  (fun a => Z.of_N (N_of_ascii a)) <$> list_ascii_of_string s.
Arguments chars s%_string.

(** ** An example configuration

    A panel of 160 by 80 pixels at offset (1, 26) in the controller's
    memory, with the CS line wired; a font table that holds the glyph of
    ['A'], at the five bytes from index [5 * 65] on, and is blank
    elsewhere; and the state at start-up. *)

Definition example_font (i : Z) : Z :=
  if decide (325 <= i < 330)
  then default 0 ([0x7E; 0x11; 0x11; 0x11; 0x7E] !! Z.to_nat (i - 325))
  else 0.

Definition example_state : state :=
  mkState 0 0 0x0000 0xFFFF (replicate 320 0) (replicate 12 0) [].

(** ** The driver *)

Section Driver.

(** The constants of st7735.h and the glyph table of font5x7.h, which the
    driver includes: the panel width in pixels, the offsets of the panel
    in the controller's memory, whether the CS line is wired
    ([ST7735_NO_CS]), and the font table as the byte found at an index. *)
Variable ST7735_WIDTH : Z.
Variable ST7735_X_OFFSET : Z.
Variable ST7735_Y_OFFSET : Z.
Variable ST7735_NO_CS : bool.
Variable font : Z -> Z.

(** The size of the scratch buffer, [ST7735_WIDTH << 1]. *)
Definition buffer_capacity : Z := Z.shiftl ST7735_WIDTH 1.

Definition DATA_MODE : M unit := emit DC_high.
Definition COMMAND_MODE : M unit := emit DC_low.
Definition BEGIN_WRITE : M unit := if ST7735_NO_CS then mret tt else emit CS_low.
Definition END_WRITE : M unit := if ST7735_NO_CS then mret tt else emit CS_high.

(** [SPI_send_DMA(buffer, size, repeat)]: [mem] is the memory the pointer
    designates; the channel reads its first [size] bytes, [repeat] times. *)
Definition SPI_send_DMA (mem : list Z) (size repeat : Z) : M unit :=
  emit (Dma (take (Z.to_nat size) mem) size repeat).

Definition SPI_send (data : Z) : M unit := emit (Byte data).

Definition write_command_8 (cmd : Z) : M unit :=
  COMMAND_MODE;; SPI_send cmd.

Definition write_data_8 (data : Z) : M unit :=
  DATA_MODE;; SPI_send data.

Definition write_data_16 (data : Z) : M unit :=
  DATA_MODE;;
  SPI_send (u8 (Z.shiftr data 8));;
  SPI_send (u8 data).

Definition tft_set_cursor (x y : Z) : M unit :=
  modify (set_cursor_x (u16 (x + ST7735_X_OFFSET)));;
  modify (set_cursor_y (u16 (y + ST7735_Y_OFFSET))).

Definition tft_set_color (color : Z) : M unit := modify (set_color color).

Definition tft_set_background_color (color : Z) : M unit := modify (set_bg_color color).

Definition tft_set_window (x0 y0 x1 y1 : Z) : M unit :=
  write_command_8 ST7735_CASET;;
  write_data_16 x0;;
  write_data_16 x1;;
  write_command_8 ST7735_RASET;;
  write_data_16 y0;;
  write_data_16 y1;;
  write_command_8 ST7735_RAMWR.

(** [buffer[sz++] = hi; buffer[sz++] = lo] for a 16-bit colour, with the
    [uint16_t] index [sz]. *)
Definition put_color (color sz : Z) : M Z :=
  buffer_store sz (Z.shiftr color 8);;
  buffer_store (u16 (sz + 1)) color;;
  mret (u16 (u16 (sz + 1) + 1)).

Definition tft_print_char (c : Z) : M unit :=
  let start := c + Z.shiftl c 2 in
  sz ← for_range 7 0 (fun i sz =>
          for_range 5 0 (fun j sz =>
            if decide (Z.land (font (start + j)) (Z.shiftl 1 i) <> 0)
            then color ← get _color; put_color color sz
            else color ← get _bg_color; put_color color sz) sz) 0;
  BEGIN_WRITE;;
  cx ← get _cursor_x;
  cy ← get _cursor_y;
  tft_set_window cx cy (u16 (cx + 4)) (u16 (cx + 6));;
  DATA_MODE;;
  b ← get buffer;
  SPI_send_DMA b sz 1;;
  END_WRITE.

(** [s] is the contents of the C string up to its terminator; the loop
    also stops at a NUL inside it. *)
Fixpoint tft_print (s : list Z) : M unit :=
  match s with
  | [] => mret tt
  | c :: rest =>
      if decide (c = 0) then mret tt
      else
        tft_print_char c;;
        cx ← get _cursor_x;
        modify (set_cursor_x (u16 (cx + 6)));;
        tft_print rest
  end.

(** [while (num) { str[--digits] = num % 10 + '0'; num /= 10; }] returns
    the final [digits]. *)
Equations? digits_loop (num digits : Z) : M Z by wf (Z.abs_nat num) lt :=
  digits_loop num digits with decide (num = 0) => {
    | left _ := mret digits;
    | right _ :=
        str_store (u8 (digits - 1)) (Z.rem num 10 + 48);;
        digits_loop (Z.quot num 10) (u8 (digits - 1)) }.
Proof.
  apply Nat2Z.inj_lt. rewrite !Zabs2Nat.id_abs.
  rewrite <- (Z.quot_abs num 10) by lia.
  apply Z.quot_lt; lia.
Qed.

(** [while (digits) { str[--digits] = ' '; }]: one store for each value
    the [uint8_t] counter goes through on its way down to 0. *)
Fixpoint spaces_loop (n : nat) (digits : Z) : M Z :=
  match n with
  | O => mret digits
  | S n' =>
      str_store (u8 (digits - 1)) 32;;
      spaces_loop n' (u8 (digits - 1))
  end.

(** [-num] of the one [int32_t] that has no opposite is undefined in ISO C;
    the target wraps, and so does the embedding. *)
Definition tft_print_number (num : Z) : M unit :=
  let digits := 11 in
  let neg := bool_decide (num < 0) in
  let num := if neg then i32 (- num) else num in
  str_store digits 0;;
  digits ← digits_loop num digits;
  digits ← (if decide (digits = 11)
            then str_store (u8 (digits - 1)) 48;; mret (u8 (digits - 1))
            else mret digits);
  digits ← (if neg
            then str_store (u8 (digits - 1)) 45;; mret (u8 (digits - 1))
            else mret digits);
  spaces_loop (Z.to_nat digits) digits;;
  s ← get str;
  tft_print s.

Definition tft_draw_pixel (x y color : Z) : M unit :=
  let x := u16 (x + ST7735_X_OFFSET) in
  let y := u16 (y + ST7735_Y_OFFSET) in
  BEGIN_WRITE;;
  tft_set_window x y x y;;
  write_data_16 color;;
  END_WRITE.

Definition tft_fill_rect (x y width height color : Z) : M unit :=
  let x := u16 (x + ST7735_X_OFFSET) in
  let y := u16 (y + ST7735_Y_OFFSET) in
  sz ← for_range (Z.to_nat width) 0 (fun _ sz => put_color color sz) 0;
  BEGIN_WRITE;;
  tft_set_window x y (u16 (x + width - 1)) (u16 (y + height - 1));;
  DATA_MODE;;
  b ← get buffer;
  SPI_send_DMA b sz height;;
  END_WRITE.

Definition tft_draw_bitmap (x y width height : Z) (bitmap : list Z) : M unit :=
  let x := u16 (x + ST7735_X_OFFSET) in
  let y := u16 (y + ST7735_Y_OFFSET) in
  BEGIN_WRITE;;
  tft_set_window x y (u16 (x + width - 1)) (u16 (y + height - 1));;
  DATA_MODE;;
  SPI_send_DMA bitmap (u16 (Z.shiftl (i32 (width * height)) 1)) 1;;
  END_WRITE.

Definition _tft_draw_fast_v_line (x y h color : Z) : M unit :=
  let x := i16 (x + ST7735_X_OFFSET) in
  let y := i16 (y + ST7735_Y_OFFSET) in
  sz ← for_range (Z.to_nat h) 0 (fun _ sz => put_color color sz) 0;
  BEGIN_WRITE;;
  tft_set_window (u16 x) (u16 y) (u16 x) (u16 (y + h - 1));;
  DATA_MODE;;
  b ← get buffer;
  SPI_send_DMA b sz 1;;
  END_WRITE.

Definition _tft_draw_fast_h_line (x y w color : Z) : M unit :=
  let x := i16 (x + ST7735_X_OFFSET) in
  let y := i16 (y + ST7735_Y_OFFSET) in
  sz ← for_range (Z.to_nat w) 0 (fun _ sz => put_color color sz) 0;
  BEGIN_WRITE;;
  tft_set_window (u16 x) (u16 y) (u16 (x + w - 1)) (u16 y);;
  DATA_MODE;;
  b ← get buffer;
  SPI_send_DMA b sz 1;;
  END_WRITE.

(** [#define _diff(a, b) ((a > b) ? (a - b) : (b - a))], on [int]. *)
Definition _diff (a b : Z) : Z := if decide (a > b) then a - b else b - a.

(** The loop of [_tft_draw_line]: [for (; x0 <= x1; x0++) ...].  Its
    counter is an [int16_t] that wraps at 32767, so the loop is given
    fuel: one unit for each evaluation of the loop test. *)
Fixpoint _tft_draw_line_loop (fuel : nat) (steep : bool)
    (x0 y0 x1 dx dy err step color : Z) : M unit :=
  match fuel with
  | O => fun _ => OutOfFuel
  | S fuel' =>
      if decide (x0 <= x1) then
        (if steep
         then tft_draw_pixel (u16 y0) (u16 x0) color
         else tft_draw_pixel (u16 x0) (u16 y0) color);;
        let err := i16 (err - dy) in
        if decide (err < 0)
        then _tft_draw_line_loop fuel' steep (i16 (x0 + 1)) (i16 (y0 + step))
               x1 dx dy (i16 (err + dx)) step color
        else _tft_draw_line_loop fuel' steep (i16 (x0 + 1)) y0
               x1 dx dy err step color
      else mret tt
  end.

(** The endpoints of [_tft_draw_line] after its two conditional swaps:
    [(x0, y0, x1, y1)] with the major axis first. *)
Definition _tft_draw_line_swaps (x0 y0 x1 y1 : Z) : bool * (Z * Z * Z * Z) :=
  let steep := bool_decide (_diff y1 y0 > _diff x1 x0) in
  let '(x0, y0, x1, y1) := if steep then (y0, x0, y1, x1) else (x0, y0, x1, y1) in
  let '(x0, y0, x1, y1) :=
    if decide (x0 > x1) then (x1, y1, x0, y0) else (x0, y0, x1, y1) in
  (steep, (x0, y0, x1, y1)).

Definition _tft_draw_line (fuel : nat) (x0 y0 x1 y1 color : Z) : M unit :=
  let '(steep, (x0, y0, x1, y1)) := _tft_draw_line_swaps x0 y0 x1 y1 in
  let dx := i16 (x1 - x0) in
  let dy := i16 (_diff y1 y0) in
  let err := i16 (Z.shiftr dx 1) in
  let step := if decide (y0 < y1) then 1 else -1 in
  _tft_draw_line_loop fuel steep x0 y0 x1 dx dy err step color.

Definition tft_draw_rect (x y width height color : Z) : M unit :=
  _tft_draw_fast_h_line (i16 x) (i16 y) (i16 width) color;;
  _tft_draw_fast_h_line (i16 x) (i16 (y + height - 1)) (i16 width) color;;
  _tft_draw_fast_v_line (i16 x) (i16 y) (i16 height) color;;
  _tft_draw_fast_v_line (i16 (x + width - 1)) (i16 y) (i16 height) color.

(** The three branches of [tft_draw_line]. *)
Inductive line_branch : Type := Vertical | Horizontal | Bresenham.

Definition tft_draw_line_branch (x0 y0 x1 y1 : Z) : line_branch :=
  if decide (x0 = x1) then Vertical
  else if decide (y0 = y1) then Horizontal
  else Bresenham.

Definition tft_draw_line (fuel : nat) (x0 y0 x1 y1 color : Z) : M unit :=
  match tft_draw_line_branch x0 y0 x1 y1 with
  | Vertical =>
      let '(y0, y1) := if decide (y0 > y1) then (y1, y0) else (y0, y1) in
      _tft_draw_fast_v_line x0 y0 (i16 (y1 - y0 + 1)) color
  | Horizontal =>
      let '(x0, x1) := if decide (x0 > x1) then (x1, x0) else (x0, x1) in
      _tft_draw_fast_h_line x0 y0 (i16 (x1 - x0 + 1)) color
  | Bresenham => _tft_draw_line fuel x0 y0 x1 y1 color
  end.

(** ** What a call leaves on the bus and in the scratch buffer *)

(** [emits m l]: [m] returns, appends [l] to the bus log and changes
    nothing else. *)
Definition emits (m : M unit) (l : list event) : Prop :=
  forall st, m st = Done tt (set_bus (bus st ++ l) st).

(** The two bytes of a 16-bit value, high byte first. *)
Definition be16 (v : Z) : list Z := [u8 (Z.shiftr v 8); u8 v].

Definition BEGIN_WRITE_bus : list event := if ST7735_NO_CS then [] else [CS_low].
Definition END_WRITE_bus : list event := if ST7735_NO_CS then [] else [CS_high].

Definition write_data_16_bus (v : Z) : list event := DC_high :: (Byte <$> be16 v).

Definition tft_set_window_bus (x0 y0 x1 y1 : Z) : list event :=
  [DC_low; Byte ST7735_CASET] ++ write_data_16_bus x0 ++ write_data_16_bus x1 ++
  [DC_low; Byte ST7735_RASET] ++ write_data_16_bus y0 ++ write_data_16_bus y1 ++
  [DC_low; Byte ST7735_RAMWR].

(** One transaction that sets the window and then streams [data] in a
    single block transfer: what every buffered primitive puts on the bus. *)
Definition block_transfer_bus (x0 y0 x1 y1 : Z) (data : list Z) (size repeat : Z)
  : list event :=
  BEGIN_WRITE_bus ++ tft_set_window_bus x0 y0 x1 y1 ++
  [DC_high; Dma data size repeat] ++ END_WRITE_bus.

(** What [tft_draw_pixel] puts on the bus. *)
Definition tft_draw_pixel_bus (x y color : Z) : list event :=
  BEGIN_WRITE_bus ++
  tft_set_window_bus
    (u16 (x + ST7735_X_OFFSET)) (u16 (y + ST7735_Y_OFFSET))
    (u16 (x + ST7735_X_OFFSET)) (u16 (y + ST7735_Y_OFFSET)) ++
  write_data_16_bus color ++ END_WRITE_bus.

(** [n] copies of a colour's two bytes. *)
Definition fill_bytes (n color : Z) : list Z :=
  mjoin (replicate (Z.to_nat n) (be16 color)).

(** The colour of the pixel in bit-row [i], column [j] of the glyph of [c],
    and the glyph as the scratch buffer holds it: row after row, five
    pixels a row, two bytes a pixel. *)
Definition glyph_pixel (c fg bg i j : Z) : Z :=
  if decide (Z.land (font (c + Z.shiftl c 2 + j)) (Z.shiftl 1 i) <> 0) then fg else bg.

Definition glyph_row (c fg bg i : Z) : list Z :=
  mjoin ((fun j => be16 (glyph_pixel c fg bg i j)) <$> seqZ 0 5).

Definition glyph_bytes (c fg bg : Z) : list Z :=
  mjoin ((fun i => glyph_row c fg bg i) <$> seqZ 0 7).

(** The number of characters of a C string: those before its terminator. *)
Fixpoint strlen (s : list Z) : Z :=
  match s with
  | [] => 0
  | c :: rest => if decide (c = 0) then 0 else 1 + strlen rest
  end.

(** The values [(x0, y0)] of the loop variables of [_tft_draw_line] at its
    first [n] iterations: the major-axis counter and the minor-axis
    coordinate that the error term steers. *)
Fixpoint line_points (n : nat) (x0 y0 dx dy err step : Z) : list (Z * Z) :=
  match n with
  | O => []
  | S n' =>
      (x0, y0) ::
      let err := i16 (err - dy) in
      if decide (err < 0)
      then line_points n' (i16 (x0 + 1)) (i16 (y0 + step)) dx dy (i16 (err + dx)) step
      else line_points n' (i16 (x0 + 1)) y0 dx dy err step
  end.

(** The pixel the loop plots for the values [(x0, y0)], as the arguments
    of its [tft_draw_pixel] call, and what that call puts on the bus. *)
Definition plotted (steep : bool) (p : Z * Z) : Z * Z :=
  if steep then (u16 (snd p), u16 (fst p)) else (u16 (fst p), u16 (snd p)).

Definition plot_bus (steep : bool) (color : Z) (p : Z * Z) : list event :=
  tft_draw_pixel_bus (fst (plotted steep p)) (snd (plotted steep p)) color.

(** The points of a whole call of [_tft_draw_line], from its entry values. *)
Definition _tft_draw_line_points (x0 y0 x1 y1 : Z) : list (Z * Z) :=
  let '(steep, (x0, y0, x1, y1)) := _tft_draw_line_swaps x0 y0 x1 y1 in
  let dx := i16 (x1 - x0) in
  let dy := i16 (_diff y1 y0) in
  let err := i16 (Z.shiftr dx 1) in
  let step := if decide (y0 < y1) then 1 else -1 in
  line_points (Z.to_nat (x1 - x0 + 1)) x0 y0 dx dy err step.

Definition _tft_draw_line_steep (x0 y0 x1 y1 : Z) : bool :=
  fst (_tft_draw_line_swaps x0 y0 x1 y1).

(** [x0] and [x1] after the swaps: the ends of the major axis. *)
Definition major_start (x0 y0 x1 y1 : Z) : Z :=
  let '(_, (a0, _, _, _)) := _tft_draw_line_swaps x0 y0 x1 y1 in a0.

Definition major_end (x0 y0 x1 y1 : Z) : Z :=
  let '(_, (_, _, a1, _)) := _tft_draw_line_swaps x0 y0 x1 y1 in a1.

(** The number a string of decimal digit characters denotes. *)
Definition digit_value (ds : list Z) : Z :=
  fold_left (fun acc d => 10 * acc + (d - 48)) ds 0.

Definition is_digit (c : Z) : Prop := 48 <= c <= 57.

(** A sign and digits, right-justified with spaces in a field of 11. *)
Definition number_field (neg : bool) (ds : list Z) : list Z :=
  let body := (if neg then [45] else []) ++ ds in
  replicate (11 - length body) 32 ++ body.

(** The block transfers on a stretch of the bus log, each as its size and
    repeat count. *)
Definition dma_transfers (l : list event) : list (Z * Z) :=
  omap (fun e => match e with Dma _ size repeat => Some (size, repeat) | _ => None end) l.

(** The bytes put on the MOSI line by a stretch of the bus log, each with
    the state of the DC line: [false] for a command byte, [true] for data. *)
Fixpoint wire (dc : bool) (l : list event) : list (bool * Z) :=
  match l with
  | [] => []
  | DC_high :: l => wire true l
  | DC_low :: l => wire false l
  | e :: l => ((fun b => (dc, b)) <$> streamed e) ++ wire dc l
  end.

(** [st'] differs from [st] in the scratch buffer at most at the indices
    below [n]. *)
Definition touches_below (n : Z) (st st' : state) : Prop :=
  length (buffer st') = length (buffer st) /\
  drop (Z.to_nat n) (buffer st') = drop (Z.to_nat n) (buffer st).

(** The state as the C types and the declaration of the arrays have it. *)
Definition wf_state (st : state) : Prop :=
  is_u16 (_cursor_x st) /\ is_u16 (_cursor_y st) /\
  length (buffer st) = Z.to_nat buffer_capacity /\
  length (str st) = 12%nat.

(** A single call of a drawing primitive. *)
Inductive primitive : Type :=
| Draw_pixel (x y color : Z)
| Fill_rect (x y width height color : Z)
| Draw_bitmap (x y width height : Z) (bitmap : list Z)
| Fast_v_line (x y h color : Z)
| Fast_h_line (x y w color : Z)
| Draw_rect (x y width height color : Z)
| Draw_line (fuel : nat) (x0 y0 x1 y1 color : Z)
| Print_char (c : Z)
| Print (s : list Z)
| Print_number (num : Z).

Definition call (p : primitive) : M unit :=
  match p with
  | Draw_pixel x y color => tft_draw_pixel x y color
  | Fill_rect x y width height color => tft_fill_rect x y width height color
  | Draw_bitmap x y width height bitmap => tft_draw_bitmap x y width height bitmap
  | Fast_v_line x y h color => _tft_draw_fast_v_line x y h color
  | Fast_h_line x y w color => _tft_draw_fast_h_line x y w color
  | Draw_rect x y width height color => tft_draw_rect x y width height color
  | Draw_line fuel x0 y0 x1 y1 color => tft_draw_line fuel x0 y0 x1 y1 color
  | Print_char c => tft_print_char c
  | Print s => tft_print s
  | Print_number num => tft_print_number num
  end.

(** What the arguments of a call have to respect for the scratch buffer to
    hold what the call writes: every extent that drives a fill, be it a
    width or the height of a vertical line, is at most the display width.
    The general line is also asked to terminate, and the number to have an
    opposite. *)
Definition within_contract (p : primitive) : Prop :=
  match p with
  | Draw_pixel _ _ _ => True
  | Fill_rect _ _ width _ _ => 0 <= width <= ST7735_WIDTH
  | Draw_bitmap _ _ _ _ _ => True
  | Fast_v_line _ _ h _ => 0 <= h <= ST7735_WIDTH
  | Fast_h_line _ _ w _ => 0 <= w <= ST7735_WIDTH
  | Draw_rect _ _ width height _ =>
      0 <= width <= ST7735_WIDTH /\ 0 <= height <= ST7735_WIDTH
  | Draw_line fuel x0 y0 x1 y1 _ =>
      is_i16 x0 /\ is_i16 y0 /\ is_i16 x1 /\ is_i16 y1 /\
      match tft_draw_line_branch x0 y0 x1 y1 with
      | Vertical => Z.abs (y1 - y0) + 1 <= ST7735_WIDTH
      | Horizontal => Z.abs (x1 - x0) + 1 <= ST7735_WIDTH
      | Bresenham =>
          major_end x0 y0 x1 y1 < 32767 /\
          (Z.to_nat (Z.max (Z.abs (x1 - x0)) (Z.abs (y1 - y0)) + 1) < fuel)%nat
      end
  | Print_char _ => True
  | Print _ => True
  | Print_number num => - 2 ^ 31 < num < 2 ^ 31
  end.

(** The number of bytes, from index 0, that a call may write in the
    scratch buffer. *)
Definition scratch_bytes (p : primitive) : Z :=
  match p with
  | Draw_pixel _ _ _ => 0
  | Fill_rect _ _ width _ _ => 2 * width
  | Draw_bitmap _ _ _ _ _ => 0
  | Fast_v_line _ _ h _ => 2 * h
  | Fast_h_line _ _ w _ => 2 * w
  | Draw_rect _ _ width height _ => 2 * Z.max width height
  | Draw_line _ x0 y0 x1 y1 _ =>
      match tft_draw_line_branch x0 y0 x1 y1 with
      | Vertical => 2 * (Z.abs (y1 - y0) + 1)
      | Horizontal => 2 * (Z.abs (x1 - x0) + 1)
      | Bresenham => 0
      end
  | Print_char _ => 70
  | Print _ => 70
  | Print_number _ => 70
  end.

(** The block transfers of a call, each as its size and repeat count. *)
Definition transfers (p : primitive) : list (Z * Z) :=
  match p with
  | Draw_pixel _ _ _ => []
  | Fill_rect _ _ width height _ => [(2 * width, height)]
  | Draw_bitmap _ _ width height _ => [(u16 (Z.shiftl (i32 (width * height)) 1), 1)]
  | Fast_v_line _ _ h _ => [(2 * h, 1)]
  | Fast_h_line _ _ w _ => [(2 * w, 1)]
  | Draw_rect _ _ width height _ =>
      [(2 * width, 1); (2 * width, 1); (2 * height, 1); (2 * height, 1)]
  | Draw_line _ x0 y0 x1 y1 _ =>
      match tft_draw_line_branch x0 y0 x1 y1 with
      | Vertical => [(2 * (Z.abs (y1 - y0) + 1), 1)]
      | Horizontal => [(2 * (Z.abs (x1 - x0) + 1), 1)]
      | Bresenham => []
      end
  | Print_char _ => [(70, 1)]
  | Print s => replicate (Z.to_nat (strlen s)) (70, 1)
  | Print_number _ => replicate 11 (70, 1)
  end.

(** [frames m st n tr]: from [st], [m] returns, having written in the
    scratch buffer only below index [n] and issued the block transfers
    [tr]. *)
Definition frames (m : M unit) (st : state) (n : Z) (tr : list (Z * Z)) : Prop :=
  exists st' sent,
    m st = Done tt st' /\
    bus st' = bus st ++ sent /\
    dma_transfers sent = tr /\
    touches_below n st st'.

(** [block_writer P body blk]: from a state in [P], with room for [blk]
    at index [sz] of the scratch buffer, [body sz] overwrites exactly the
    [length blk] bytes from [sz] on with [blk], returns the index after
    them and changes nothing else. *)
Definition block_writer (P : state -> Prop) (body : Z -> M Z) (blk : list Z) : Prop :=
  forall sz st,
    P st ->
    0 <= sz ->
    sz + Z.of_nat (length blk) <= Z.of_nat (length (buffer st)) ->
    sz + Z.of_nat (length blk) < 2 ^ 16 ->
    body sz st =
      Done (sz + Z.of_nat (length blk))
           (set_buffer (take (Z.to_nat sz) (buffer st) ++ blk ++
                        drop (Z.to_nat sz + length blk) (buffer st)) st).

(** [y0] and [y1] after the swaps: the ends of the minor axis. *)
Definition minor_start (x0 y0 x1 y1 : Z) : Z :=
  let '(_, (_, b0, _, _)) := _tft_draw_line_swaps x0 y0 x1 y1 in b0.

Definition minor_end (x0 y0 x1 y1 : Z) : Z :=
  let '(_, (_, _, _, b1)) := _tft_draw_line_swaps x0 y0 x1 y1 in b1.

(** The characters of a C string: those before its terminator. *)
Fixpoint c_chars (s : list Z) : list Z :=
  match s with
  | [] => []
  | c :: rest => if decide (c = 0) then [] else c :: c_chars rest
  end.

(** A program of the driver's user: one call after the other. *)
Fixpoint calls (ps : list primitive) : M unit :=
  match ps with
  | [] => mret tt
  | p :: rest => call p;; calls rest
  end.

(** Whether a call is one of the two that print a string. *)
Definition prints_string (p : primitive) : bool :=
  match p with
  | Print _ | Print_number _ => true
  | _ => false
  end.

(** *** Start-up

    [tft_init] also drives what is not on the bus log: the configuration
    of the SPI and DMA peripherals, the RESET line and the delays.  Its
    embedding returns the timeline of all that it does, in order: the
    operations off the bus as they are called, those on the bus as the
    driver's functions log them. *)
Inductive board_event : Type :=
| On_bus (e : event)       (* an operation of the bus log           *)
| SPI_configured           (* SPI_init(): the SPI and DMA registers *)
| RESET_is_low             (* GPIOC->BCR  |= 1 << PIN_RESET         *)
| RESET_is_high            (* GPIOC->BSHR |= 1 << PIN_RESET         *)
| Waited (ms : Z).         (* Delay_Ms(ms)                          *)

Definition timeline : Type := list board_event.

(** A function of the driver, run with the timeline: what it appends to
    the bus log is appended to the timeline. *)
Definition on_bus (m : M unit) (tl : timeline) : M timeline :=
  fun st =>
    match m st with
    | Done _ st' => Done (tl ++ (On_bus <$> drop (length (bus st)) (bus st'))) st'
    | Fault => Fault
    | OutOfFuel => OutOfFuel
    end.

Definition off_bus (e : board_event) (tl : timeline) : M timeline := mret (tl ++ [e]).

Definition SPI_init : timeline -> M timeline := off_bus SPI_configured.
Definition RESET_LOW : timeline -> M timeline := off_bus RESET_is_low.
Definition RESET_HIGH : timeline -> M timeline := off_bus RESET_is_high.
Definition Delay_Ms (ms : Z) : timeline -> M timeline := off_bus (Waited ms).

Definition ST7735_RST_DELAY : Z := 50.
Definition ST7735_SLPOUT_DELAY : Z := 120.

Definition ST7735_SLPOUT : Z := 0x11.
Definition ST7735_INVON : Z := 0x21.
Definition ST7735_NORON : Z := 0x13.
Definition ST7735_DISPON : Z := 0x29.
Definition ST7735_MADCTL : Z := 0x36.
Definition ST7735_COLMOD : Z := 0x3A.
Definition ST7735_GMCTRP1 : Z := 0xE0.
Definition ST7735_GMCTRN1 : Z := 0xE1.

Definition ST7735_MADCTL_MV : Z := 0x20.
Definition ST7735_MADCTL_MY : Z := 0x80.
Definition ST7735_MADCTL_BGR : Z := 0x08.

Definition gamma_p : list Z :=
  [0x09; 0x16; 0x09; 0x20; 0x21; 0x1B; 0x13; 0x19;
   0x17; 0x15; 0x1E; 0x2B; 0x04; 0x05; 0x02; 0x0E].

Definition gamma_n : list Z :=
  [0x0B; 0x14; 0x08; 0x1E; 0x22; 0x1D; 0x18; 0x1E;
   0x1B; 0x1A; 0x24; 0x2B; 0x06; 0x06; 0x02; 0x0F].

Definition tft_init : M timeline :=
  tl ← SPI_init [];
  tl ← RESET_LOW tl;
  tl ← Delay_Ms ST7735_RST_DELAY tl;
  tl ← RESET_HIGH tl;
  tl ← Delay_Ms ST7735_RST_DELAY tl;
  tl ← on_bus BEGIN_WRITE tl;
  tl ← on_bus (write_command_8 ST7735_SLPOUT) tl;
  tl ← Delay_Ms ST7735_SLPOUT_DELAY tl;
  tl ← on_bus (write_command_8 ST7735_MADCTL) tl;
  tl ← on_bus (write_data_8
                 (Z.lor (Z.lor ST7735_MADCTL_MY ST7735_MADCTL_MV) ST7735_MADCTL_BGR)) tl;
  tl ← on_bus (write_command_8 ST7735_COLMOD) tl;
  tl ← on_bus (write_data_8 0x05) tl;
  tl ← on_bus (write_command_8 ST7735_GMCTRP1) tl;
  tl ← on_bus DATA_MODE tl;
  tl ← on_bus (SPI_send_DMA gamma_p 16 1) tl;
  tl ← on_bus (write_command_8 ST7735_GMCTRN1) tl;
  tl ← on_bus DATA_MODE tl;
  tl ← on_bus (SPI_send_DMA gamma_n 16 1) tl;
  tl ← Delay_Ms 10 tl;
  tl ← on_bus (write_command_8 ST7735_INVON) tl;
  tl ← on_bus (write_command_8 ST7735_NORON) tl;
  tl ← Delay_Ms 10 tl;
  tl ← on_bus (write_command_8 ST7735_DISPON) tl;
  tl ← Delay_Ms 10 tl;
  on_bus END_WRITE tl.

(** The bus operations of a timeline. *)
Definition bus_of (tl : timeline) : list event :=
  omap (fun e => match e with On_bus e => Some e | _ => None end) tl.

(** ** What a call does: auxiliary lemmas *)

(** Reduce the projections of an updated state, and nothing else. *)
Ltac simpl_state :=
  cbn [_cursor_x _cursor_y _color _bg_color buffer str bus
       set_cursor_x set_cursor_y set_color set_bg_color set_buffer set_str set_bus] in *.

Lemma bind_Done {A B : Type} (m : M A) (k : A -> M B) st a st' :
  m st = Done a st' -> (m ≫= k) st = k a st'.
Proof. intros H. unfold mbind, M_bind. by rewrite H. Qed.

Lemma set_bus_nil st : set_bus (bus st ++ []) st = st.
Proof. destruct st; unfold set_bus; simpl. by rewrite app_nil_r. Qed.

Lemma emits_ret : emits (mret tt) [].
Proof. intros st. by rewrite set_bus_nil. Qed.

Lemma emits_emit e : emits (emit e) [e].
Proof. by intros st. Qed.

Lemma emits_bind m k l1 l2 :
  emits m l1 -> emits k l2 -> emits (m;; k) (l1 ++ l2).
Proof.
  intros Hm Hk st. unfold mbind, M_bind. rewrite Hm, Hk.
  unfold set_bus; simpl. by rewrite app_assoc.
Qed.

Lemma emits_BEGIN_WRITE : emits BEGIN_WRITE BEGIN_WRITE_bus.
Proof.
  unfold BEGIN_WRITE, BEGIN_WRITE_bus.
  destruct ST7735_NO_CS; [apply emits_ret | apply emits_emit].
Qed.

Lemma emits_END_WRITE : emits END_WRITE END_WRITE_bus.
Proof.
  unfold END_WRITE, END_WRITE_bus.
  destruct ST7735_NO_CS; [apply emits_ret | apply emits_emit].
Qed.

Lemma emits_write_command_8 cmd : emits (write_command_8 cmd) [DC_low; Byte cmd].
Proof. apply (emits_bind _ _ [_] [_]); apply emits_emit. Qed.

Lemma emits_write_data_16 v : emits (write_data_16 v) (write_data_16_bus v).
Proof.
  apply (emits_bind _ _ [_] [_; _]); [apply emits_emit |].
  apply (emits_bind _ _ [_] [_]); apply emits_emit.
Qed.

Lemma emits_tft_set_window x0 y0 x1 y1 :
  emits (tft_set_window x0 y0 x1 y1) (tft_set_window_bus x0 y0 x1 y1).
Proof.
  unfold tft_set_window, tft_set_window_bus.
  repeat (apply emits_bind;
          [first [apply emits_write_command_8 | apply emits_write_data_16] |]).
  apply emits_write_command_8.
Qed.

Lemma u16_small z : 0 <= z < 2 ^ 16 -> u16 z = z.
Proof. intros. unfold u16. by apply Z.mod_small. Qed.

Lemma i16_small z : - 2 ^ 15 <= z < 2 ^ 15 -> i16 z = z.
Proof. intros. unfold i16. rewrite Z.mod_small; lia. Qed.

Lemma put_color_writes P color : block_writer P (put_color color) (be16 color).
Proof.
  intros sz st _ Hsz Hlen Hmax. simpl in Hlen, Hmax.
  unfold put_color, mbind, M_bind, buffer_store.
  rewrite decide_True by lia. simpl.
  rewrite length_insert, (u16_small (sz + 1)) by lia.
  rewrite decide_True by lia. unfold mret, M_ret, set_buffer. simpl.
  rewrite (u16_small (sz + 1 + 1)) by lia.
  replace (sz + 1 + 1) with (sz + 2) by lia.
  do 2 f_equal.
  replace (Z.to_nat (sz + 1)) with (S (Z.to_nat sz)) by lia.
  rewrite (insert_take_drop (buffer st) (Z.to_nat sz)) by lia.
  rewrite insert_app_r_alt by (rewrite length_take; lia).
  rewrite length_take.
  replace (S (Z.to_nat sz) - Z.to_nat sz `min` length (buffer st))%nat with 1%nat by lia.
  simpl. destruct (drop (S (Z.to_nat sz)) (buffer st)) as [|b0 rest] eqn:Hd.
  - apply (f_equal length) in Hd. rewrite length_drop in Hd. simpl in Hd. lia.
  - simpl. do 3 f_equal.
    replace (Z.to_nat sz + 2)%nat with (1 + S (Z.to_nat sz))%nat by lia.
    rewrite Nat.add_comm, <- drop_drop, Hd. done.
Qed.

(** A loop of block writers is a block writer: the blocks of its
    iterations end up one after the other. *)
Lemma for_range_writes P body blk m n :
  (forall b st, P st -> P (set_buffer b st)) ->
  (forall i, length (blk i) = m) ->
  (forall i, block_writer P (body i) (blk i)) ->
  forall from,
    block_writer P (for_range n from body) (mjoin (blk <$> seqZ from (Z.of_nat n))).
Proof.
  intros HP Hm Hbody. induction n as [|n IH]; intros from sz st HPst Hsz Hlen Hmax.
  - simpl. unfold mret, M_ret. rewrite Z.add_0_r, Nat.add_0_r.
    rewrite take_drop. f_equal. by destruct st.
  - replace (Z.of_nat (S n)) with (Z.succ (Z.of_nat n)) in * by lia.
    rewrite seqZ_cons in * by lia. rewrite Z.pred_succ in *.
    rewrite fmap_cons in *.
    change (mjoin (blk from :: ?l)) with (blk from ++ mjoin l) in *.
    rewrite length_app in Hlen, Hmax.
    change (Z.succ from) with (from + 1) in *.
    simpl for_range.
    rewrite (bind_Done _ _ _ _ _ (Hbody from sz st HPst Hsz ltac:(lia) ltac:(lia))).
    set (st1 := set_buffer _ st).
    assert (Hl1 : length (buffer st1) = length (buffer st)).
    { unfold st1. simpl. rewrite !length_app, length_take, length_drop. lia. }
    rewrite (IH (from + 1) (sz + Z.of_nat (length (blk from))) st1);
      [| by apply HP | lia | rewrite Hl1; lia | lia].
    f_equal; [rewrite length_app; lia |].
    unfold st1, set_buffer. simpl. f_equal.
    set (b1 := blk from). set (rest := mjoin _). set (buf := buffer st).
    replace (Z.to_nat (sz + Z.of_nat (length b1))) with (Z.to_nat sz + length b1)%nat by lia.
    assert (Hts : length (take (Z.to_nat sz) buf) = Z.to_nat sz)
      by (rewrite length_take; unfold buf; lia).
    rewrite (app_assoc (take _ buf) b1).
    rewrite take_app_length' by (rewrite length_app; lia).
    rewrite drop_app_ge by (rewrite length_app; lia).
    rewrite drop_drop, !length_app, Hts, <- !app_assoc.
    do 4 f_equal. lia.
Qed.

Lemma bind_get {A B : Type} (f : state -> A) (k : A -> M B) st :
  (get f ≫= k) st = k (f st) st.
Proof. done. Qed.

Lemma length_join_replicate {A : Type} n (l : list A) :
  length (mjoin (replicate n l)) = (n * length l)%nat.
Proof. induction n as [|n IH]; [done|]. simpl. rewrite length_app, IH. lia. Qed.

Lemma length_fill_bytes n color : 0 <= n -> Z.of_nat (length (fill_bytes n color)) = 2 * n.
Proof. intros. unfold fill_bytes. rewrite length_join_replicate. simpl. lia. Qed.

(** The tail shared by the buffered primitives: window, then one block
    transfer of the first [sz] bytes of the scratch buffer. *)
Lemma send_window x0 y0 x1 y1 sz repeat st :
  (tft_set_window x0 y0 x1 y1;; DATA_MODE;;
   b ← get buffer; SPI_send_DMA b sz repeat;; END_WRITE) st =
  Done tt (set_bus (bus st ++
             tft_set_window_bus x0 y0 x1 y1 ++
             [DC_high; Dma (take (Z.to_nat sz) (buffer st)) sz repeat] ++
             END_WRITE_bus) st).
Proof.
  rewrite (bind_Done _ _ _ _ _ (emits_tft_set_window x0 y0 x1 y1 _)).
  rewrite (bind_Done _ _ _ _ _ (emits_emit DC_high _)).
  rewrite bind_get. unfold SPI_send_DMA.
  rewrite (bind_Done _ _ _ _ _ (emits_emit _ _)).
  rewrite emits_END_WRITE.
  unfold set_bus. simpl. by rewrite <- !app_assoc.
Qed.

Lemma send_buffer x0 y0 x1 y1 sz repeat st :
  (BEGIN_WRITE;; tft_set_window x0 y0 x1 y1;; DATA_MODE;;
   b ← get buffer; SPI_send_DMA b sz repeat;; END_WRITE) st =
  Done tt (set_bus (bus st ++
             block_transfer_bus x0 y0 x1 y1 (take (Z.to_nat sz) (buffer st)) sz repeat)
             st).
Proof.
  rewrite (bind_Done _ _ _ _ _ (emits_BEGIN_WRITE st)).
  rewrite send_window.
  unfold block_transfer_bus, set_bus. simpl. by rewrite <- !app_assoc.
Qed.

(** The fill loop shared by [tft_fill_rect] and the fast lines. *)
Lemma fill_loop n color st :
  0 <= n ->
  2 * n <= Z.of_nat (length (buffer st)) ->
  2 * n < 2 ^ 16 ->
  for_range (Z.to_nat n) 0 (fun _ sz => put_color color sz) 0 st =
  Done (2 * n)
       (set_buffer (fill_bytes n color ++ drop (Z.to_nat (2 * n)) (buffer st)) st).
Proof.
  intros Hn Hlen Hmax.
  pose proof (for_range_writes (fun _ => True) (fun _ => put_color color)
                (fun _ => be16 color) 2%nat (Z.to_nat n)
                (fun _ _ _ => I) (fun _ => eq_refl)
                (fun _ => put_color_writes _ color) 0) as Hloop.
  rewrite (const_fmap _ _ (be16 color)) in Hloop by done.
  rewrite length_seqZ, Nat2Z.id in Hloop. fold (fill_bytes n color) in Hloop.
  pose proof (length_fill_bytes n color Hn) as Hfill.
  etrans; [exact (Hloop 0 st I ltac:(lia) ltac:(lia) ltac:(lia))|].
  f_equal; [lia|]. simpl. do 3 f_equal. lia.
Qed.

(** A fill of [n] pixels followed by the shared tail. *)
Lemma fill_and_send n color x0 y0 x1 y1 repeat st :
  0 <= n ->
  2 * n <= Z.of_nat (length (buffer st)) ->
  2 * n < 2 ^ 16 ->
  (sz ← for_range (Z.to_nat n) 0 (fun _ sz => put_color color sz) 0;
   BEGIN_WRITE;; tft_set_window x0 y0 x1 y1;; DATA_MODE;;
   b ← get buffer; SPI_send_DMA b sz repeat;; END_WRITE) st =
  Done tt
    (set_bus (bus st ++
              block_transfer_bus x0 y0 x1 y1 (fill_bytes n color) (2 * n) repeat)
       (set_buffer (fill_bytes n color ++ drop (Z.to_nat (2 * n)) (buffer st)) st)).
Proof.
  intros Hn Hlen Hmax.
  rewrite (bind_Done _ _ _ _ _ (fill_loop n color st Hn Hlen Hmax)).
  rewrite send_buffer. simpl.
  rewrite take_app_length'
    by (pose proof (length_fill_bytes n color Hn); lia).
  done.
Qed.

Lemma tft_fill_rect_run x y width height color st :
  0 <= width ->
  2 * width <= Z.of_nat (length (buffer st)) ->
  2 * width < 2 ^ 16 ->
  tft_fill_rect x y width height color st =
  Done tt
    (set_bus (bus st ++
              block_transfer_bus
                (u16 (x + ST7735_X_OFFSET)) (u16 (y + ST7735_Y_OFFSET))
                (u16 (u16 (x + ST7735_X_OFFSET) + width - 1))
                (u16 (u16 (y + ST7735_Y_OFFSET) + height - 1))
                (fill_bytes width color) (2 * width) height)
       (set_buffer (fill_bytes width color ++
                    drop (Z.to_nat (2 * width)) (buffer st)) st)).
Proof. intros. unfold tft_fill_rect. cbv zeta. apply fill_and_send; assumption. Qed.

Lemma _tft_draw_fast_v_line_run x y h color st :
  0 <= h ->
  2 * h <= Z.of_nat (length (buffer st)) ->
  2 * h < 2 ^ 16 ->
  _tft_draw_fast_v_line x y h color st =
  Done tt
    (set_bus (bus st ++
              block_transfer_bus
                (u16 (i16 (x + ST7735_X_OFFSET))) (u16 (i16 (y + ST7735_Y_OFFSET)))
                (u16 (i16 (x + ST7735_X_OFFSET)))
                (u16 (i16 (y + ST7735_Y_OFFSET) + h - 1))
                (fill_bytes h color) (2 * h) 1)
       (set_buffer (fill_bytes h color ++ drop (Z.to_nat (2 * h)) (buffer st)) st)).
Proof.
  intros. unfold _tft_draw_fast_v_line. cbv zeta. apply fill_and_send; assumption.
Qed.

Lemma _tft_draw_fast_h_line_run x y w color st :
  0 <= w ->
  2 * w <= Z.of_nat (length (buffer st)) ->
  2 * w < 2 ^ 16 ->
  _tft_draw_fast_h_line x y w color st =
  Done tt
    (set_bus (bus st ++
              block_transfer_bus
                (u16 (i16 (x + ST7735_X_OFFSET))) (u16 (i16 (y + ST7735_Y_OFFSET)))
                (u16 (i16 (x + ST7735_X_OFFSET) + w - 1))
                (u16 (i16 (y + ST7735_Y_OFFSET)))
                (fill_bytes w color) (2 * w) 1)
       (set_buffer (fill_bytes w color ++ drop (Z.to_nat (2 * w)) (buffer st)) st)).
Proof.
  intros. unfold _tft_draw_fast_h_line. cbv zeta. apply fill_and_send; assumption.
Qed.

Lemma emits_tft_draw_pixel x y color :
  emits (tft_draw_pixel x y color) (tft_draw_pixel_bus x y color).
Proof.
  unfold tft_draw_pixel, tft_draw_pixel_bus. cbv zeta.
  apply emits_bind; [exact emits_BEGIN_WRITE |].
  apply emits_bind; [exact (emits_tft_set_window _ _ _ _) |].
  apply emits_bind; [exact (emits_write_data_16 _) | exact emits_END_WRITE].
Qed.

Lemma length_glyph_row c fg bg i : length (glyph_row c fg bg i) = 10%nat.
Proof. done. Qed.

Lemma length_glyph_bytes c fg bg : length (glyph_bytes c fg bg) = 70%nat.
Proof. done. Qed.

Lemma tft_print_char_run c st :
  70 <= Z.of_nat (length (buffer st)) ->
  tft_print_char c st =
  Done tt
    (set_bus (bus st ++
              block_transfer_bus (_cursor_x st) (_cursor_y st)
                (u16 (_cursor_x st + 4)) (u16 (_cursor_x st + 6))
                (glyph_bytes c (_color st) (_bg_color st)) 70 1)
       (set_buffer (glyph_bytes c (_color st) (_bg_color st) ++
                    drop 70 (buffer st)) st)).
Proof.
  intros Hlen. unfold tft_print_char. cbv zeta.
  set (fg := _color st). set (bg := _bg_color st).
  set (P := fun s : state => _color s = fg /\ _bg_color s = bg).
  assert (HP : forall b s, P s -> P (set_buffer b s)) by (by intros b s [? ?]).
  assert (Hpix : forall i j,
    block_writer P
      (fun sz =>
         if decide (Z.land (font (c + Z.shiftl c 2 + j)) (Z.shiftl 1 i) <> 0)
         then color ← get _color; put_color color sz
         else color ← get _bg_color; put_color color sz)
      (be16 (glyph_pixel c fg bg i j))).
  { intros i j sz s [Hfg Hbg] Hsz Hl Hm. unfold glyph_pixel.
    destruct (decide _); rewrite bind_get.
    - rewrite Hfg. by apply (put_color_writes P).
    - rewrite Hbg. by apply (put_color_writes P). }
  assert (Hrow : forall i,
    block_writer P
      (for_range 5 0 (fun j sz =>
         if decide (Z.land (font (c + Z.shiftl c 2 + j)) (Z.shiftl 1 i) <> 0)
         then color ← get _color; put_color color sz
         else color ← get _bg_color; put_color color sz))
      (glyph_row c fg bg i)).
  { intros i.
    exact (for_range_writes P _ (fun j => be16 (glyph_pixel c fg bg i j)) 2%nat 5%nat
             HP (fun _ => eq_refl) (Hpix i) 0). }
  pose proof (for_range_writes P _ (fun i => glyph_row c fg bg i) 10%nat 7%nat
                HP (fun _ => eq_refl) Hrow 0 0 st (conj eq_refl eq_refl)
                ltac:(lia)) as Hglyph.
  fold (glyph_bytes c fg bg) in Hglyph.
  rewrite (bind_Done _ _ _ _ _ (Hglyph ltac:(simpl; lia) ltac:(simpl; lia))).
  rewrite (bind_Done _ _ _ _ _ (emits_BEGIN_WRITE _)).
  rewrite !bind_get, send_window.
  unfold block_transfer_bus, set_bus, set_buffer. simpl.
  by rewrite <- !app_assoc.
Qed.

Lemma strlen_nonneg s : 0 <= strlen s.
Proof. induction s as [|c s IH]; simpl; [lia|]. destruct (decide _); lia. Qed.

Lemma u16_add_l a b : u16 (u16 a + b) = u16 (a + b).
Proof. unfold u16. by rewrite Zplus_mod_idemp_l. Qed.

Lemma touches_below_trans n st1 st2 st3 :
  touches_below n st1 st2 -> touches_below n st2 st3 -> touches_below n st1 st3.
Proof. intros [? ?] [? ?]. split; congruence. Qed.

Lemma touches_below_mono n m st st' :
  0 <= n <= m -> touches_below n st st' -> touches_below m st st'.
Proof.
  intros Hnm [Hl Hd]. split; [done|].
  replace (Z.to_nat m) with (Z.to_nat n + Z.to_nat (m - n))%nat by lia.
  by rewrite <- !drop_drop, Hd.
Qed.

(** Writing a block of [n] bytes at the head of the buffer. *)
Lemma touches_below_block n blk t st :
  Z.of_nat (length blk) = n ->
  n <= Z.of_nat (length (buffer st)) ->
  touches_below n st
    (set_bus t (set_buffer (blk ++ drop (Z.to_nat n) (buffer st)) st)).
Proof.
  intros Hblk Hn. unfold touches_below. simpl_state. split.
  - rewrite length_app, length_drop. lia.
  - rewrite drop_app_length' by lia. done.
Qed.

Lemma dma_transfers_app l1 l2 :
  dma_transfers (l1 ++ l2) = dma_transfers l1 ++ dma_transfers l2.
Proof. apply omap_app. Qed.

Lemma dma_transfers_window x0 y0 x1 y1 : dma_transfers (tft_set_window_bus x0 y0 x1 y1) = [].
Proof. done. Qed.

Lemma dma_transfers_BEGIN_WRITE : dma_transfers BEGIN_WRITE_bus = [].
Proof. unfold BEGIN_WRITE_bus. by destruct ST7735_NO_CS. Qed.

Lemma dma_transfers_END_WRITE : dma_transfers END_WRITE_bus = [].
Proof. unfold END_WRITE_bus. by destruct ST7735_NO_CS. Qed.

Lemma dma_transfers_block x0 y0 x1 y1 data size repeat :
  dma_transfers (block_transfer_bus x0 y0 x1 y1 data size repeat) = [(size, repeat)].
Proof.
  unfold block_transfer_bus.
  rewrite !dma_transfers_app, dma_transfers_BEGIN_WRITE, dma_transfers_END_WRITE,
    dma_transfers_window. done.
Qed.

Lemma dma_transfers_pixel x y color : dma_transfers (tft_draw_pixel_bus x y color) = [].
Proof.
  unfold tft_draw_pixel_bus.
  rewrite !dma_transfers_app, dma_transfers_BEGIN_WRITE, dma_transfers_END_WRITE,
    dma_transfers_window. done.
Qed.

(** [tft_print] returns, with the cursor moved 6 pixels to the right for
    each character and the rest of the display state as it was; each
    character costs one block transfer of 70 bytes. *)
Lemma tft_print_frame s : forall st,
  70 <= Z.of_nat (length (buffer st)) ->
  is_u16 (_cursor_x st) ->
  exists st',
    tft_print s st = Done tt st' /\
    _cursor_x st' = u16 (_cursor_x st + 6 * strlen s) /\
    _cursor_y st' = _cursor_y st /\
    _color st' = _color st /\
    _bg_color st' = _bg_color st /\
    touches_below 70 st st' /\
    str st' = str st /\
    exists sent,
      bus st' = bus st ++ sent /\
      dma_transfers sent = replicate (Z.to_nat (strlen s)) (70, 1).
Proof.
  induction s as [|c s IH]; intros st Hlen Hcx; simpl.
  - exists st. rewrite Z.add_0_r, u16_small by done.
    repeat split; try done. exists []. by rewrite app_nil_r.
  - destruct (decide (c = 0)) as [_|_].
    { exists st. rewrite Z.add_0_r, u16_small by done.
      repeat split; try done. exists []. by rewrite app_nil_r. }
    rewrite (bind_Done _ _ _ _ _ (tft_print_char_run c st Hlen)).
    rewrite bind_get. unfold modify at 1.
    erewrite bind_Done by reflexivity.
    set (st1 := set_cursor_x _ _).
    assert (Ht1 : touches_below 70 st st1).
    { unfold st1. apply (touches_below_block 70); [done | lia]. }
    destruct (IH st1) as (st' & Hrun & Hx & Hy & Hfg & Hbg & Hbuf & Hstr & sent & Hbus & Hdma).
    { destruct Ht1 as [-> _]. lia. }
    { unfold st1, is_u16, u16. simpl_state. apply Z.mod_pos_bound. lia. }
    exists st'. rewrite Hrun, Hx, Hy, Hfg, Hbg, Hstr.
    unfold st1 in Hbus |- *. simpl_state. rewrite u16_add_l.
    split; [done|]. split; [f_equal; lia|]. do 3 (split; [done|]).
    split; [by apply (touches_below_trans _ _ _ _ Ht1)|]. split; [done|].
    eexists. split; [by rewrite Hbus, <- app_assoc|].
    rewrite dma_transfers_app, dma_transfers_block, Hdma.
    pose proof (strlen_nonneg s).
    replace (Z.to_nat (1 + strlen s)) with (S (Z.to_nat (strlen s))) by lia. done.
Qed.

Lemma line_loop_run steep x1 dx dy step color n :
  forall fuel x0 y0 err st,
    is_i16 x0 ->
    x1 < 2 ^ 15 - 1 ->
    Z.of_nat n = x1 - x0 + 1 ->
    (n < fuel)%nat ->
    _tft_draw_line_loop fuel steep x0 y0 x1 dx dy err step color st =
    Done tt (set_bus (bus st ++
                      mjoin (plot_bus steep color <$>
                             line_points n x0 y0 dx dy err step)) st).
Proof.
  induction n as [|n IH]; intros fuel x0 y0 err st Hx0 Hx1 Hn Hfuel;
    (destruct fuel as [|fuel]; [lia|]); simpl.
  - rewrite decide_False by lia. by rewrite set_bus_nil.
  - rewrite decide_True by lia.
    assert (Hplot : emits (if steep
                           then tft_draw_pixel (u16 y0) (u16 x0) color
                           else tft_draw_pixel (u16 x0) (u16 y0) color)
                          (plot_bus steep color (x0, y0))).
    { unfold plot_bus, plotted. destruct steep; apply emits_tft_draw_pixel. }
    rewrite (bind_Done _ _ _ _ _ (Hplot st)).
    assert (Hnext : i16 (x0 + 1) = x0 + 1) by (apply i16_small; unfold is_i16 in *; lia).
    destruct (decide (i16 (err - dy) < 0));
      (rewrite IH; [| rewrite Hnext; unfold is_i16 in *; lia | done | lia | lia]);
      simpl_state; by rewrite <- app_assoc.
Qed.

Lemma line_points_length n : forall x0 y0 dx dy err step,
  length (line_points n x0 y0 dx dy err step) = n.
Proof.
  induction n as [|n IH]; intros; simpl; [done|].
  destruct (decide _); by rewrite IH.
Qed.

Lemma line_points_major n : forall x0 y0 dx dy err step,
  x0 + Z.of_nat n <= 2 ^ 15 -> - 2 ^ 15 <= x0 ->
  (line_points n x0 y0 dx dy err step).*1 = seqZ x0 (Z.of_nat n).
Proof.
  induction n as [|n IH]; intros x0 y0 dx dy err step Hhi Hlo; [done|].
  replace (Z.of_nat (S n)) with (Z.succ (Z.of_nat n)) by lia.
  rewrite seqZ_cons, Z.pred_succ by lia. simpl.
  destruct n as [|n]; [by destruct (decide _)|].
  rewrite (i16_small (x0 + 1)) by lia.
  destruct (decide _); rewrite IH by lia; done.
Qed.

(** After the swaps the major axis runs upwards, over the larger of the
    two extents. *)
Lemma _tft_draw_line_swaps_spec x0 y0 x1 y1 :
  exists steep a0 b0 a1 b1,
    _tft_draw_line_swaps x0 y0 x1 y1 = (steep, (a0, b0, a1, b1)) /\
    a0 <= a1 /\
    a1 - a0 = Z.max (Z.abs (x1 - x0)) (Z.abs (y1 - y0)) /\
    Z.min (Z.min x0 x1) (Z.min y0 y1) <= a0 /\
    a1 <= Z.max (Z.max x0 x1) (Z.max y0 y1).
Proof.
  unfold _tft_draw_line_swaps, _diff.
  destruct (bool_decide _) eqn:Hsteep;
    [apply bool_decide_eq_true in Hsteep | apply bool_decide_eq_false in Hsteep];
    repeat (destruct (decide _) in Hsteep); destruct (decide _);
    do 5 eexists; (split; [reflexivity|]); lia.
Qed.

Lemma _tft_draw_line_run fuel x0 y0 x1 y1 color st :
  is_i16 x0 -> is_i16 y0 -> is_i16 x1 -> is_i16 y1 ->
  major_end x0 y0 x1 y1 < 2 ^ 15 - 1 ->
  (Z.to_nat (Z.max (Z.abs (x1 - x0)) (Z.abs (y1 - y0)) + 1) < fuel)%nat ->
  _tft_draw_line fuel x0 y0 x1 y1 color st =
  Done tt (set_bus (bus st ++
                    mjoin (plot_bus (_tft_draw_line_steep x0 y0 x1 y1) color <$>
                           _tft_draw_line_points x0 y0 x1 y1)) st).
Proof.
  unfold is_i16, _tft_draw_line, _tft_draw_line_points, _tft_draw_line_steep, major_end.
  intros Hx0 Hy0 Hx1 Hy1.
  destruct (_tft_draw_line_swaps_spec x0 y0 x1 y1)
    as (steep & a0 & b0 & a1 & b1 & -> & Hle & Hext & Hlo & Hhi).
  intros Hend Hfuel. simpl fst.
  apply line_loop_run; unfold is_i16; lia.
Qed.

Lemma _tft_draw_line_points_length x0 y0 x1 y1 :
  Z.of_nat (length (_tft_draw_line_points x0 y0 x1 y1)) =
  Z.max (Z.abs (x1 - x0)) (Z.abs (y1 - y0)) + 1.
Proof.
  unfold _tft_draw_line_points.
  destruct (_tft_draw_line_swaps_spec x0 y0 x1 y1)
    as (steep & a0 & b0 & a1 & b1 & -> & Hle & Hext & Hlo & Hhi).
  rewrite line_points_length. lia.
Qed.

Lemma _tft_draw_line_points_major x0 y0 x1 y1 :
  is_i16 x0 -> is_i16 y0 -> is_i16 x1 -> is_i16 y1 ->
  (_tft_draw_line_points x0 y0 x1 y1).*1 =
  seqZ (major_start x0 y0 x1 y1) (Z.max (Z.abs (x1 - x0)) (Z.abs (y1 - y0)) + 1).
Proof.
  unfold is_i16, _tft_draw_line_points, major_start.
  intros Hx0 Hy0 Hx1 Hy1.
  destruct (_tft_draw_line_swaps_spec x0 y0 x1 y1)
    as (steep & a0 & b0 & a1 & b1 & -> & Hle & Hext & Hlo & Hhi).
  rewrite line_points_major by lia. f_equal. lia.
Qed.

Lemma digits_loop_zero digits : digits_loop 0 digits = mret digits.
Proof. etrans; [apply digits_loop_equation_1|]. done. Qed.

Lemma digits_loop_step num digits :
  num <> 0 ->
  digits_loop num digits =
  (str_store (u8 (digits - 1)) (Z.rem num 10 + 48);;
   digits_loop (Z.quot num 10) (u8 (digits - 1))).
Proof.
  intros H. etrans; [apply digits_loop_equation_1|].
  destruct (decide (num = 0)); [done|]. reflexivity.
Qed.

Lemma digit_value_snoc ds d : digit_value (ds ++ [d]) = 10 * digit_value ds + (d - 48).
Proof. unfold digit_value. by rewrite fold_left_app. Qed.

(** The digit loop stores the decimal digits of a positive [num] just
    below index [digits], most significant first, and returns the index of
    the first of them; a [num] below [10 ^ k] has at most [k] of them. *)
Lemma digits_loop_run num :
  0 <= num ->
  forall k digits st,
    0 <= k <= digits ->
    digits < 2 ^ 8 ->
    digits <= Z.of_nat (length (str st)) ->
    num < 10 ^ k ->
    exists ds,
      Z.of_nat (length ds) <= k /\
      digits_loop num digits st =
        Done (digits - Z.of_nat (length ds))
             (set_str (take (Z.to_nat digits - length ds) (str st) ++ ds ++
                       drop (Z.to_nat digits) (str st)) st) /\
      Forall is_digit ds /\
      digit_value ds = num /\
      (num = 0 -> ds = []) /\
      (0 < num -> exists d ds', ds = d :: ds' /\ d <> 48).
Proof.
  intros Hnum. generalize Hnum. pattern num.
  apply Z_lt_induction; [|done]. clear num Hnum.
  intros num IH Hnum k digits st Hk Hd Hlen Hbound.
  destruct (decide (num = 0)) as [->|Hnz].
  { exists []. rewrite digits_loop_zero. simpl.
    rewrite Nat.sub_0_r, take_drop, Z.sub_0_r.
    repeat split; try done; try lia. unfold mret, M_ret. f_equal. by destruct st. }
  assert (Hk1 : 1 <= k).
  { destruct (decide (k <= 0)); [|lia].
    replace k with 0 in Hbound by lia. simpl in Hbound. lia. }
  pose proof (Z.mod_pos_bound num 10 ltac:(lia)) as Hrem.
  pose proof (Z.div_mod num 10 ltac:(lia)) as Hdm.
  set (x := num mod 10 + 48) in *.
  rewrite digits_loop_step by done.
  rewrite Z.rem_mod_nonneg, Z.quot_div_nonneg by lia. fold x.
  assert (Hu : u8 (digits - 1) = digits - 1) by (unfold u8; apply Z.mod_small; lia).
  assert (Hx : u8 x = x) by (unfold u8; apply Z.mod_small; lia).
  rewrite Hu.
  assert (Hstore : str_store (digits - 1) x st =
                   Done tt (set_str (<[Z.to_nat (digits - 1) := x]> (str st)) st)).
  { unfold str_store. rewrite decide_True by lia. by rewrite Hx. }
  rewrite (bind_Done _ _ _ _ _ Hstore).
  set (st1 := set_str _ st).
  destruct (IH (num / 10) ltac:(lia) ltac:(lia) (k - 1) (digits - 1) st1)
    as (ds' & Hlen' & Hrun & Hdig & Hval & Hzero & Hpos).
  { lia. }
  { lia. }
  { unfold st1. simpl_state. rewrite length_insert. lia. }
  { apply Z.div_lt_upper_bound; [lia|].
    rewrite <- Z.pow_succ_r by lia. by replace (Z.succ (k - 1)) with k by lia. }
  exists (ds' ++ [x]). rewrite length_app. simpl length.
  split; [lia|]. split.
  { rewrite Hrun. f_equal; [lia|].
    unfold st1, set_str. simpl_state. f_equal.
    rewrite (insert_take_drop (str st) (Z.to_nat (digits - 1))) by lia.
    assert (Ht : length (take (Z.to_nat (digits - 1)) (str st)) = Z.to_nat (digits - 1))
      by (rewrite length_take; lia).
    rewrite take_app_le by lia.
    rewrite take_take.
    rewrite drop_app_length' by done.
    rewrite <- !app_assoc. simpl.
    replace (S (Z.to_nat (digits - 1))) with (Z.to_nat digits) by lia.
    f_equal. f_equal. lia. }
  split; [apply Forall_app; split; [done|]; repeat constructor; unfold is_digit; lia|].
  split; [rewrite digit_value_snoc, Hval; unfold x; lia|].
  split; [lia|]. intros _.
  destruct (decide (num / 10 = 0)) as [Hq|Hq].
  - rewrite (Hzero Hq). exists x, []. split; [done|]. unfold x. lia.
  - destruct Hpos as (d & ds'' & -> & Hd0); [lia|].
    exists d, (ds'' ++ [x]). done.
Qed.

(** [str[--digits] = c] when the array is [pad ++ rest] and [digits] is
    the length of [pad]: the last cell of [pad] joins [rest]. *)
Lemma str_push digits c pad rest st :
  str st = pad ++ rest ->
  Z.of_nat (length pad) = digits ->
  1 <= digits < 2 ^ 8 ->
  str_store (u8 (digits - 1)) c st =
  Done tt (set_str (take (Z.to_nat (digits - 1)) pad ++ u8 c :: rest) st).
Proof.
  intros Hstr Hlen Hd. unfold str_store.
  assert (Hu : u8 (digits - 1) = digits - 1) by (unfold u8; apply Z.mod_small; lia).
  rewrite Hu, Hstr, length_app, decide_True by lia.
  do 2 f_equal.
  rewrite insert_app_l by lia.
  rewrite (insert_take_drop pad) by lia.
  rewrite (drop_ge pad) by lia. by rewrite <- app_assoc.
Qed.

Lemma spaces_loop_run n : forall pad rest st,
  str st = pad ++ rest ->
  length pad = n ->
  Z.of_nat n < 2 ^ 8 ->
  spaces_loop n (Z.of_nat n) st = Done 0 (set_str (replicate n 32 ++ rest) st).
Proof.
  induction n as [|n IH]; intros pad rest st Hstr Hlen Hn.
  - destruct pad; [|done]. simpl in *. unfold mret, M_ret. rewrite <- Hstr.
    f_equal. by destruct st.
  - simpl spaces_loop.
    rewrite (bind_Done _ _ _ _ _ (str_push (Z.of_nat (S n)) 32 pad rest st Hstr ltac:(lia) ltac:(lia))).
    assert (Hu : u8 (Z.of_nat (S n) - 1) = Z.of_nat n)
      by (unfold u8; rewrite Z.mod_small; lia).
    rewrite Hu.
    rewrite (IH (take (Z.to_nat (Z.of_nat (S n) - 1)) pad) (u8 32 :: rest));
      [| done | rewrite length_take; lia | lia].
    unfold set_str. simpl_state. do 2 f_equal.
    change (u8 32) with 32.
    rewrite (replicate_S_end n), <- app_assoc. done.
Qed.

Lemma tft_print_nul s : forall st, tft_print (s ++ [0]) st = tft_print s st.
Proof.
  induction s as [|c s IH]; intros st; simpl; [done|].
  destruct (decide (c = 0)); [done|].
  unfold mbind, M_bind. destruct (tft_print_char c st) as [[] st1| |]; try done.
  simpl. apply IH.
Qed.

(** A conditional [str[--digits] = c; ] in front of the rest of the code. *)
Lemma push_if {B : Type} (b : bool) (c : Z) (k : Z -> M B) digits pad rest st :
  str st = pad ++ rest ->
  Z.of_nat (length pad) = digits ->
  (b = true -> 1 <= digits) ->
  digits < 2 ^ 8 ->
  exists pad',
    Z.of_nat (length pad') = digits - (if b then 1 else 0) /\
    ((if b then str_store (u8 (digits - 1)) c;; mret (u8 (digits - 1))
      else mret digits) ≫= k) st =
    k (digits - (if b then 1 else 0))
      (set_str (pad' ++ (if b then [u8 c] else []) ++ rest) st).
Proof.
  intros Hstr Hlen Hb Hd. destruct b.
  - specialize (Hb eq_refl).
    exists (take (Z.to_nat (digits - 1)) pad). split; [rewrite length_take; lia|].
    unfold mbind at 1, M_bind at 1. unfold mbind at 1, M_bind at 1.
    rewrite (str_push digits c pad rest st Hstr Hlen) by lia.
    unfold mret, M_ret. f_equal. unfold u8. apply Z.mod_small. lia.
  - exists pad. split; [lia|]. unfold mbind, M_bind, mret, M_ret. simpl.
    rewrite Z.sub_0_r, <- Hstr. f_equal. by destruct st.
Qed.

(** [tft_print_number] hands [tft_print] the sign and the decimal digits
    of [num], right-justified with spaces in a field of 11 characters. *)
Lemma tft_print_number_run num st :
  - 2 ^ 31 < num < 2 ^ 31 ->
  length (str st) = 12%nat ->
  exists ds,
    Forall is_digit ds /\
    digit_value ds = Z.abs num /\
    (1 <= length ds <= 10)%nat /\
    (num = 0 -> ds = [48]) /\
    (num <> 0 -> exists d ds', ds = d :: ds' /\ d <> 48) /\
    tft_print_number num st =
    tft_print (number_field (bool_decide (num < 0)) ds)
      (set_str (number_field (bool_decide (num < 0)) ds ++ [0]) st).
Proof.
  intros Hnum Hlen. unfold tft_print_number. cbv zeta.
  set (neg := bool_decide (num < 0)).
  assert (Hn : (if neg then i32 (- num) else num) = Z.abs num).
  { unfold neg. destruct (bool_decide_reflect (num < 0));
      [unfold i32; rewrite Z.mod_small; lia | lia]. }
  rewrite Hn.
  assert (Hs0 : str_store 11 0 st = Done tt (set_str (take 11 (str st) ++ [0]) st)).
  { unfold str_store. rewrite decide_True by lia. do 2 f_equal.
    rewrite insert_take_drop by lia. simpl (Z.to_nat 11).
    rewrite (drop_ge _ 12) by lia. done. }
  rewrite (bind_Done _ _ _ _ _ Hs0). set (st0 := set_str _ st).
  destruct (digits_loop_run (Z.abs num) ltac:(lia) 10 11 st0)
    as (ds0 & Hl0 & Hrun & Hdig & Hval & Hzero & Hpos).
  { lia. }
  { lia. }
  { unfold st0. simpl_state. rewrite length_app, length_take, Hlen. simpl length. lia. }
  { lia. }
  rewrite (bind_Done _ _ _ _ _ Hrun). set (st1 := set_str _ st0).
  set (pad1 := take (11 - length ds0) (take 11 (str st))).
  assert (Hstr1 : str st1 = pad1 ++ (ds0 ++ [0])).
  { unfold st1, st0, pad1. simpl_state. simpl (Z.to_nat 11).
    rewrite take_app_le by (rewrite length_take; lia).
    rewrite drop_app_length' by (rewrite length_take; lia). done. }
  assert (Hpad1 : Z.of_nat (length pad1) = 11 - Z.of_nat (length ds0)).
  { unfold pad1. rewrite !length_take. lia. }
  assert (Hrest : forall ds pad2,
    Z.of_nat (length pad2) = 11 - Z.of_nat (length ds) ->
    (1 <= length ds <= 10)%nat ->
    ((if neg then str_store (u8 (11 - Z.of_nat (length ds) - 1)) 45;;
                  mret (u8 (11 - Z.of_nat (length ds) - 1))
      else mret (11 - Z.of_nat (length ds))) ≫= λ digits0 : Z,
        spaces_loop (Z.to_nat digits0) digits0 ≫= λ _ : Z,
        get str ≫= λ s : list Z, tft_print s)
      (set_str (pad2 ++ ds ++ [0]) st) =
    tft_print (number_field neg ds) (set_str (number_field neg ds ++ [0]) st)).
  { intros ds pad2 Hp2 Hds.
    destruct (push_if neg 45 (λ digits0 : Z,
                spaces_loop (Z.to_nat digits0) digits0 ≫= λ _ : Z,
                get str ≫= λ s : list Z, tft_print s)
                (11 - Z.of_nat (length ds)) pad2 (ds ++ [0])
                (set_str (pad2 ++ ds ++ [0]) st) eq_refl Hp2 ltac:(lia) ltac:(lia))
      as (pad3 & Hp3 & ->).
    set (body := (if neg then [45] else []) ++ ds).
    assert (Hbody : length body = (length ds + if neg then 1 else 0)%nat)
      by (unfold body; destruct neg; simpl; lia).
    replace (11 - Z.of_nat (length ds) - (if neg then 1 else 0))
      with (Z.of_nat (length pad3)) by lia.
    rewrite Nat2Z.id.
    assert (Hsign : 0 <= (if neg then 1 else 0) <= 1) by (destruct neg; lia).
    set (st3 := set_str (pad3 ++ _) _).
    assert (Hstr3 : str st3 = pad3 ++ (body ++ [0])).
    { unfold st3, body. simpl_state. destruct neg; by rewrite <- ?app_assoc. }
    rewrite (bind_Done _ _ _ _ _
               (spaces_loop_run (length pad3) pad3 (body ++ [0]) st3 Hstr3
                  eq_refl ltac:(lia))).
    rewrite bind_get. unfold st3, set_str. simpl_state.
    replace (length pad3) with (11 - length body)%nat by (destruct neg; lia).
    rewrite !(app_assoc _ body [0]). fold body.
    change (replicate (11 - length body) 32 ++ body) with (number_field neg ds).
    by rewrite tft_print_nul. }
  destruct (decide (11 - Z.of_nat (length ds0) = 11)) as [Hz|Hz].
  - assert (ds0 = []) as -> by (apply nil_length_inv; lia).
    assert (num = 0) as Hnum0.
    { destruct (decide (num = 0)); [done|].
      destruct Hpos as (? & ? & ? & ?); [lia | done]. }
    exists [48].
    split; [repeat constructor; unfold is_digit; lia|].
    split; [by rewrite Hnum0|].
    split; [simpl; lia|].
    split; [done|].
    split; [done|].
    destruct (push_if true 48 (λ digits : Z,
                (if neg then str_store (u8 (digits - 1)) 45;; mret (u8 (digits - 1))
                 else mret digits) ≫= λ digits0 : Z,
                spaces_loop (Z.to_nat digits0) digits0 ≫= λ _ : Z,
                get str ≫= λ s : list Z, tft_print s)
                11 pad1 [0] st1 Hstr1 ltac:(simpl in Hpad1; lia) ltac:(lia) ltac:(lia))
      as (pad2 & Hp2 & Heq).
    etrans; [exact Heq|]. unfold st1, st0, set_str. simpl_state.
    apply (Hrest [48] pad2); simpl; lia.
  - exists ds0.
    split; [done|].
    split; [done|].
    split; [destruct ds0; simpl in *; lia|].
    split; [intros ->; simpl in Hzero; by rewrite (Hzero eq_refl) in Hz|].
    split; [intros Hnz; apply Hpos; lia|].
    destruct (push_if false 48 (λ digits : Z,
                (if neg then str_store (u8 (digits - 1)) 45;; mret (u8 (digits - 1))
                 else mret digits) ≫= λ digits0 : Z,
                spaces_loop (Z.to_nat digits0) digits0 ≫= λ _ : Z,
                get str ≫= λ s : list Z, tft_print s)
                (11 - Z.of_nat (length ds0)) pad1 (ds0 ++ [0]) st1 Hstr1 Hpad1
                ltac:(done) ltac:(lia))
      as (pad2 & Hp2 & Heq).
    etrans; [exact Heq|]. unfold st1, st0, set_str. simpl_state.
    rewrite Z.sub_0_r.
    apply (Hrest ds0 pad2); [lia|]. destruct ds0; simpl in *; lia.
Qed.

Lemma digit_value_cons d ds :
  digit_value (d :: ds) = (d - 48) * 10 ^ Z.of_nat (length ds) + digit_value ds.
Proof.
  induction ds as [|x ds IH] using rev_ind; [unfold digit_value; simpl; lia|].
  rewrite app_comm_cons, !digit_value_snoc, IH, length_app. simpl length.
  replace (Z.of_nat (length ds + 1)) with (Z.succ (Z.of_nat (length ds))) by lia.
  rewrite Z.pow_succ_r by lia. lia.
Qed.

Lemma digit_value_nonneg ds : Forall is_digit ds -> 0 <= digit_value ds.
Proof.
  induction ds as [|x ds IH] using rev_ind; intros H; [done|].
  apply Forall_app in H as [H1 H2]. apply Forall_inv in H2.
  rewrite digit_value_snoc. unfold is_digit in H2. specialize (IH H1). lia.
Qed.

(** A number below 10 has one digit. *)
Lemma one_digit n d ds :
  0 <= n < 10 -> Forall is_digit (d :: ds) -> d <> 48 ->
  digit_value (d :: ds) = n -> d = n + 48 /\ ds = [].
Proof.
  intros Hn Hdig Hd Hval. rewrite digit_value_cons in Hval.
  apply Forall_cons in Hdig as [Hd1 Hds]. unfold is_digit in Hd1.
  pose proof (digit_value_nonneg ds Hds).
  destruct ds as [|x ds]; [unfold digit_value in *; simpl in *; split; [lia|done]|].
  exfalso. simpl length in Hval.
  replace (Z.of_nat (S (length ds))) with (Z.succ (Z.of_nat (length ds))) in Hval by lia.
  rewrite Z.pow_succ_r in Hval by lia.
  pose proof (Z.pow_pos_nonneg 10 (Z.of_nat (length ds)) ltac:(lia) ltac:(lia)).
  nia.
Qed.

Lemma buffer_capacity_eq : buffer_capacity = 2 * ST7735_WIDTH.
Proof. unfold buffer_capacity. rewrite Z.shiftl_mul_pow2 by lia. lia. Qed.

Lemma be16_big_endian v : 256 * u8 (Z.shiftr (u16 v) 8) + u8 (u16 v) = u16 v.
Proof.
  unfold u8, u16. rewrite Z.shiftr_div_pow2 by lia.
  pose proof (Z.mod_pos_bound v (2 ^ 16) ltac:(lia)) as Hv.
  set (m := v mod 2 ^ 16) in *.
  rewrite (Z.mod_small (m / 2 ^ 8)).
  - change (2 ^ 8) with 256. pose proof (Z.div_mod m 256 ltac:(lia)). lia.
  - split; [apply Z.div_pos; lia|]. apply Z.div_lt_upper_bound; lia.
Qed.

Lemma strlen_nonzero s : Forall (fun c => c <> 0) s -> strlen s = Z.of_nat (length s).
Proof.
  induction 1 as [|c s Hc _ IH]; [done|]. simpl strlen.
  rewrite decide_False by done. rewrite IH. simpl length. lia.
Qed.

Lemma number_field_length (neg : bool) (ds : list Z) :
  (length ds + (if neg then 1 else 0) <= 11)%nat ->
  length (number_field neg ds) = 11%nat.
Proof.
  intros H. unfold number_field.
  rewrite !length_app, length_replicate. destruct neg; simpl in *; lia.
Qed.

Lemma number_field_nonzero (neg : bool) (ds : list Z) :
  Forall is_digit ds -> Forall (fun c => c <> 0) (number_field neg ds).
Proof.
  intros H. unfold number_field. rewrite !Forall_app. split; [|split].
  - apply Forall_replicate. done.
  - destruct neg; by repeat constructor.
  - eapply Forall_impl; [exact H|]. unfold is_digit. intros c Hc. simpl in Hc. lia.
Qed.

Lemma frames_mono m st n n' tr : 0 <= n <= n' -> frames m st n tr -> frames m st n' tr.
Proof.
  intros Hn (st' & sent & Hrun & Hbus & Hdma & Ht).
  exists st', sent. do 3 (split; [done|]). by apply (touches_below_mono n).
Qed.

Lemma frames_bind m k st n tr1 tr2 :
  frames m st n tr1 ->
  (forall st', length (buffer st') = length (buffer st) -> frames k st' n tr2) ->
  frames (m;; k) st n (tr1 ++ tr2).
Proof.
  intros (st1 & sent1 & Hrun1 & Hbus1 & Hdma1 & Ht1) Hk.
  destruct (Hk st1 (proj1 Ht1)) as (st2 & sent2 & Hrun2 & Hbus2 & Hdma2 & Ht2).
  exists st2, (sent1 ++ sent2).
  rewrite (bind_Done _ _ _ _ _ Hrun1), Hrun2, Hbus2, Hbus1, dma_transfers_app,
    Hdma1, Hdma2, <- app_assoc.
  do 3 (split; [done|]). by apply (touches_below_trans _ _ st1).
Qed.

(** A call that writes a block at the head of the scratch buffer and sends
    it in one block transfer. *)
Lemma frames_block m st n blk x0 y0 x1 y1 size repeat :
  Z.of_nat (length blk) = n -> n <= Z.of_nat (length (buffer st)) ->
  m st = Done tt
    (set_bus (bus st ++ block_transfer_bus x0 y0 x1 y1 blk size repeat)
       (set_buffer (blk ++ drop (Z.to_nat n) (buffer st)) st)) ->
  frames m st n [(size, repeat)].
Proof.
  intros Hn Hlen Hrun. eexists _, _. split; [exact Hrun|]. simpl_state.
  split; [done|]. split; [apply dma_transfers_block|].
  by apply touches_below_block.
Qed.

Lemma frames_v_line x y h color st :
  0 <= h -> 2 * h <= Z.of_nat (length (buffer st)) -> 2 * h < 2 ^ 16 ->
  frames (_tft_draw_fast_v_line x y h color) st (2 * h) [(2 * h, 1)].
Proof.
  intros. eapply frames_block; [by apply length_fill_bytes | done |].
  by apply _tft_draw_fast_v_line_run.
Qed.

Lemma frames_h_line x y w color st :
  0 <= w -> 2 * w <= Z.of_nat (length (buffer st)) -> 2 * w < 2 ^ 16 ->
  frames (_tft_draw_fast_h_line x y w color) st (2 * w) [(2 * w, 1)].
Proof.
  intros. eapply frames_block; [by apply length_fill_bytes | done |].
  by apply _tft_draw_fast_h_line_run.
Qed.

Lemma frames_emits m l st :
  emits m l -> frames m st 0 (dma_transfers l).
Proof.
  intros Hm. exists (set_bus (bus st ++ l) st), l.
  split; [apply Hm|]. done.
Qed.

Lemma tft_draw_line_vertical fuel x0 y0 y1 color st :
  tft_draw_line fuel x0 y0 x0 y1 color st =
  _tft_draw_fast_v_line x0 (Z.min y0 y1) (i16 (Z.max y0 y1 - Z.min y0 y1 + 1)) color st.
Proof.
  unfold tft_draw_line, tft_draw_line_branch. rewrite decide_True by done.
  destruct (decide (y0 > y1)).
  - by rewrite Z.min_r, Z.max_l by lia.
  - by rewrite Z.min_l, Z.max_r by lia.
Qed.

Lemma tft_draw_line_horizontal fuel x0 y0 x1 color st :
  x0 <> x1 ->
  tft_draw_line fuel x0 y0 x1 y0 color st =
  _tft_draw_fast_h_line (Z.min x0 x1) y0 (i16 (Z.max x0 x1 - Z.min x0 x1 + 1)) color st.
Proof.
  intros Hx. unfold tft_draw_line, tft_draw_line_branch.
  rewrite decide_False, decide_True by done.
  destruct (decide (x0 > x1)).
  - by rewrite Z.min_r, Z.max_l by lia.
  - by rewrite Z.min_l, Z.max_r by lia.
Qed.

Lemma emits_tft_draw_bitmap x y width height bitmap :
  emits (tft_draw_bitmap x y width height bitmap)
    (block_transfer_bus
       (u16 (x + ST7735_X_OFFSET)) (u16 (y + ST7735_Y_OFFSET))
       (u16 (u16 (x + ST7735_X_OFFSET) + width - 1))
       (u16 (u16 (y + ST7735_Y_OFFSET) + height - 1))
       (take (Z.to_nat (u16 (Z.shiftl (i32 (width * height)) 1))) bitmap)
       (u16 (Z.shiftl (i32 (width * height)) 1)) 1).
Proof.
  unfold tft_draw_bitmap, block_transfer_bus. cbv zeta.
  apply emits_bind; [exact emits_BEGIN_WRITE |].
  apply emits_bind; [exact (emits_tft_set_window _ _ _ _) |].
  apply (emits_bind _ _ [_] (_ :: _)); [exact (emits_emit _) |].
  apply (emits_bind _ _ [_]); [exact (emits_emit _) | exact emits_END_WRITE].
Qed.

Lemma dma_transfers_plots steep color points :
  dma_transfers (mjoin (plot_bus steep color <$> points)) = [].
Proof.
  induction points as [|p points IH]; [done|].
  rewrite fmap_cons. change (mjoin (?x :: ?l)) with (x ++ mjoin l).
  rewrite dma_transfers_app, IH. unfold plot_bus. by rewrite dma_transfers_pixel.
Qed.

Lemma frames_draw_rect x y width height color st :
  0 <= width -> 0 <= height ->
  2 * Z.max width height <= Z.of_nat (length (buffer st)) ->
  2 * Z.max width height < 2 ^ 16 ->
  frames (tft_draw_rect x y width height color) st (2 * Z.max width height)
    [(2 * width, 1); (2 * width, 1); (2 * height, 1); (2 * height, 1)].
Proof.
  intros Hw Hh Hlen Hmax. unfold tft_draw_rect.
  rewrite (i16_small width), (i16_small height) by lia.
  apply (frames_bind _ _ _ _ [_] [_; _; _]).
  { apply (frames_mono _ _ (2 * width)); [lia|]. apply frames_h_line; lia. }
  intros st1 Hl1.
  apply (frames_bind _ _ _ _ [_] [_; _]).
  { apply (frames_mono _ _ (2 * width)); [lia|]. apply frames_h_line; lia. }
  intros st2 Hl2.
  apply (frames_bind _ _ _ _ [_] [_]).
  { apply (frames_mono _ _ (2 * height)); [lia|]. apply frames_v_line; lia. }
  intros st3 Hl3.
  apply (frames_mono _ _ (2 * height)); [lia|]. apply frames_v_line; lia.
Qed.

(** ** The properties of the specification *)

(** C2, amended.  On a panel between 35 and 32767 pixels wide, every
    single call of a drawing primitive whose fill-driving extents (the
    width of a filled rectangle or horizontal line, the height of a
    vertical line, both for a rectangle outline) do not exceed the display
    width writes at most [capacity = 2 * display_width] bytes in the
    scratch buffer, all inside it and from index 0: none for a pixel, a
    bitmap or a general line; [2 * w] for a fill of width [w]; [2 * h] for
    a vertical line of height [h]; 70 for a character.  The height of a
    filled rectangle only sets the repeat count of its one block transfer;
    the height of a vertical line is written out, two bytes a pixel, and
    sent with repeat count 1. *)
Theorem scratch_buffer_bound (p : primitive) (st : state) :
  35 <= ST7735_WIDTH < 2 ^ 15 ->
  wf_state st ->
  within_contract p ->
  0 <= scratch_bytes p <= buffer_capacity /\
  exists st' sent,
    call p st = Done tt st' /\
    bus st' = bus st ++ sent /\
    dma_transfers sent = transfers p /\
    length (buffer st') = length (buffer st) /\
    drop (Z.to_nat (scratch_bytes p)) (buffer st') =
    drop (Z.to_nat (scratch_bytes p)) (buffer st).
Proof.
  intros HW (Hcx & Hcy & Hbuf & Hstr) Hp.
  rewrite buffer_capacity_eq in *.
  assert (Hcap : Z.of_nat (length (buffer st)) = 2 * ST7735_WIDTH) by lia.
  change (0 <= scratch_bytes p <= 2 * ST7735_WIDTH /\
          frames (call p) st (scratch_bytes p) (transfers p)).
  destruct p as [x y color | x y w h color | x y w h bitmap | x y h color
                | x y w color | x y w h color | fuel x0 y0 x1 y1 color
                | c | s | num]; simpl in Hp |- *.
  - split; [lia|]. rewrite <- (dma_transfers_pixel x y color).
    apply frames_emits, emits_tft_draw_pixel.
  - split; [lia|].
    eapply frames_block; [by apply length_fill_bytes; lia | lia |].
    apply tft_fill_rect_run; lia.
  - split; [lia|].
    erewrite <- dma_transfers_block. apply frames_emits, emits_tft_draw_bitmap.
  - split; [lia|]. apply frames_v_line; lia.
  - split; [lia|]. apply frames_h_line; lia.
  - split; [lia|]. apply frames_draw_rect; lia.
  - destruct Hp as (Hx0 & Hy0 & Hx1 & Hy1 & Hp). unfold is_i16 in *.
    unfold tft_draw_line. unfold tft_draw_line_branch in *.
    destruct (decide (x0 = x1)) as [->|Hx]; [|destruct (decide (y0 = y1)) as [->|Hy]].
    + split; [lia|].
      destruct (decide (y0 > y1)).
      * rewrite i16_small by lia.
        replace (Z.abs (y1 - y0) + 1) with (y0 - y1 + 1) by lia.
        apply frames_v_line; lia.
      * rewrite i16_small by lia.
        replace (Z.abs (y1 - y0) + 1) with (y1 - y0 + 1) by lia.
        apply frames_v_line; lia.
    + split; [lia|].
      destruct (decide (x0 > x1)).
      * rewrite i16_small by lia.
        replace (Z.abs (x1 - x0) + 1) with (x0 - x1 + 1) by lia.
        apply frames_h_line; lia.
      * rewrite i16_small by lia.
        replace (Z.abs (x1 - x0) + 1) with (x1 - x0 + 1) by lia.
        apply frames_h_line; lia.
    + split; [lia|]. destruct Hp as [Hend Hfuel].
      eexists _, _. split; [apply _tft_draw_line_run; try done; lia|].
      simpl_state. split; [done|]. split; [apply dma_transfers_plots | done].
  - split; [lia|].
    eapply (frames_block _ _ 70 (glyph_bytes c (_color st) (_bg_color st)));
      [done | lia |].
    apply tft_print_char_run. lia.
  - split; [lia|].
    destruct (tft_print_frame s st ltac:(lia) Hcx)
      as (st' & Hrun & _ & _ & _ & _ & Ht & _ & sent & Hbus & Hdma).
    by exists st', sent.
  - split; [lia|].
    destruct (tft_print_number_run num st Hp Hstr)
      as (ds & Hdig & _ & Hl & _ & _ & Hrun).
    set (field := number_field _ ds) in *.
    destruct (tft_print_frame field (set_str (field ++ [0]) st) ltac:(simpl_state; lia) Hcx)
      as (st' & Hrun' & _ & _ & _ & _ & Ht & _ & sent & Hbus & Hdma).
    exists st', sent. rewrite Hrun, Hrun'. split; [done|]. split; [done|].
    split; [|done]. rewrite Hdma.
    rewrite strlen_nonzero by by apply number_field_nonzero.
    unfold field. rewrite number_field_length by (destruct (bool_decide _); lia).
    done.
Qed.

(** C3, amended.  For every width [w] that the scratch buffer holds
    ([w <= ST7735_WIDTH], the width of a panel below 32768 pixels) and
    every height [h], [tft_fill_rect x y w h color] fills the scratch buffer
    once, with [w] copies of the colour's two bytes, high byte first
    ([2 * w] bytes from index 0); sets the window to the offset-corrected
    rectangle [(x', y', x' + w - 1, y' + h - 1)], computed on 16 bits; and
    issues exactly one block transfer, of those [2 * w] bytes with repeat
    count [h], which streams [2 * w * h] bytes. *)
Theorem tft_fill_rect_one_fill (x y w h color : Z) (st : state) :
  0 <= w <= ST7735_WIDTH ->
  ST7735_WIDTH < 2 ^ 15 ->
  0 <= h ->
  length (buffer st) = Z.to_nat buffer_capacity ->
  let x' := u16 (x + ST7735_X_OFFSET) in
  let y' := u16 (y + ST7735_Y_OFFSET) in
  let fill := mjoin (replicate (Z.to_nat w) [u8 (Z.shiftr color 8); u8 color]) in
  let sent :=
    BEGIN_WRITE_bus ++
    tft_set_window_bus x' y' (u16 (x' + w - 1)) (u16 (y' + h - 1)) ++
    [DC_high; Dma fill (2 * w) h] ++ END_WRITE_bus in
  exists st',
    tft_fill_rect x y w h color st = Done tt st' /\
    buffer st' = fill ++ drop (Z.to_nat (2 * w)) (buffer st) /\
    Z.of_nat (length fill) = 2 * w /\
    bus st' = bus st ++ sent /\
    dma_transfers sent = [(2 * w, h)] /\
    Z.of_nat (length (streamed (Dma fill (2 * w) h))) = 2 * w * h.
Proof.
  intros Hw HW Hh Hlen. cbv zeta.
  rewrite buffer_capacity_eq in Hlen.
  eexists. split; [apply tft_fill_rect_run; lia|]. simpl_state.
  split; [done|].
  split; [apply (length_fill_bytes w color); lia|].
  split; [done|].
  split; [apply dma_transfers_block|].
  simpl. rewrite length_join_replicate.
  pose proof (length_fill_bytes w color ltac:(lia)) as Hfill.
  unfold fill_bytes, be16 in Hfill. nia.
Qed.

(** C4. [tft_draw_line] with [x0 = x1] takes the vertical branch and does
    exactly what the fast vertical line does over
    [[min y0 y1, max y0 y1]]; with [y0 = y1] and [x0 <> x1] it takes the
    horizontal branch and does exactly what the fast horizontal line does
    over [[min x0 x1, max x0 x1]].  Neither reaches the Bresenham branch:
    the results do not depend on the fuel, which only that branch uses. *)
Theorem tft_draw_line_axis_aligned (fuel : nat) (x0 y0 x1 y1 color : Z) (st : state) :
  (tft_draw_line_branch x0 y0 x0 y1 = Vertical /\
   tft_draw_line fuel x0 y0 x0 y1 color st =
   _tft_draw_fast_v_line x0 (Z.min y0 y1)
     (i16 (Z.max y0 y1 - Z.min y0 y1 + 1)) color st) /\
  (x0 <> x1 ->
   tft_draw_line_branch x0 y0 x1 y0 = Horizontal /\
   tft_draw_line fuel x0 y0 x1 y0 color st =
   _tft_draw_fast_h_line (Z.min x0 x1) y0
     (i16 (Z.max x0 x1 - Z.min x0 x1 + 1)) color st).
Proof.
  split.
  - split; [unfold tft_draw_line_branch; by rewrite decide_True|].
    apply tft_draw_line_vertical.
  - intros Hx.
    split; [unfold tft_draw_line_branch; by rewrite decide_False, decide_True|].
    by apply tft_draw_line_horizontal.
Qed.

(** C5. [tft_print_number (-7)] prints exactly ["         -7"] and
    [tft_print_number 0] prints exactly ["          0"]; and for every
    [num] that has an opposite, what is printed is the 11 characters of
    the sign and the decimal digits of [num], right-justified with spaces. *)
Theorem tft_print_number_field (st : state) :
  length (str st) = 12%nat ->
  tft_print_number (-7) st =
    tft_print (chars "         -7") (set_str (chars "         -7" ++ [0]) st) /\
  tft_print_number 0 st =
    tft_print (chars "          0") (set_str (chars "          0" ++ [0]) st) /\
  (forall num, - 2 ^ 31 < num < 2 ^ 31 ->
     exists ds,
       Forall is_digit ds /\
       digit_value ds = Z.abs num /\
       (num = 0 -> ds = [48]) /\
       (num <> 0 -> exists d ds', ds = d :: ds' /\ d <> 48) /\
       let sign := if bool_decide (num < 0) then [45] else [] in
       let field := replicate (11 - length (sign ++ ds)) 32 ++ sign ++ ds in
       length field = 11%nat /\
       strlen field = 11 /\
       tft_print_number num st = tft_print field (set_str (field ++ [0]) st)).
Proof.
  intros Hlen. split; [|split].
  - destruct (tft_print_number_run (-7) st ltac:(lia) Hlen)
      as (ds & Hdig & Hval & _ & _ & Hhd & ->).
    destruct Hhd as (d & ds' & -> & Hd); [done|].
    destruct (one_digit 7 d ds' ltac:(lia) Hdig Hd Hval) as [-> ->]. done.
  - destruct (tft_print_number_run 0 st ltac:(lia) Hlen)
      as (ds & _ & _ & _ & Hz & _ & ->).
    rewrite (Hz eq_refl). done.
  - intros num Hnum.
    destruct (tft_print_number_run num st Hnum Hlen)
      as (ds & Hdig & Hval & Hl & Hz & Hhd & Hrun).
    exists ds. do 4 (split; [done|]). cbv zeta.
    fold (number_field (bool_decide (num < 0)) ds).
    assert (Hfl : length (number_field (bool_decide (num < 0)) ds) = 11%nat)
      by (apply number_field_length; destruct (bool_decide _); lia).
    split; [done|]. split; [|done].
    rewrite strlen_nonzero by by apply number_field_nonzero.
    by rewrite Hfl.
Qed.

(** C6. For all [x0 y0 x1 y1], [tft_set_window] puts on the bus exactly:
    the column-address-set command byte, [x0] then [x1] as two data bytes
    each, high byte first; the row-address-set command byte, [y0] then
    [y1] likewise; and the RAM-write command byte.  The two bytes of
    every 16-bit write are the big-endian representation of the value. *)
Theorem tft_set_window_bytes (x0 y0 x1 y1 : Z) (dc : bool) (st : state) :
  let hi v := u8 (Z.shiftr v 8) in
  let lo v := u8 v in
  let sent :=
    [DC_low; Byte ST7735_CASET;
     DC_high; Byte (hi x0); Byte (lo x0); DC_high; Byte (hi x1); Byte (lo x1);
     DC_low; Byte ST7735_RASET;
     DC_high; Byte (hi y0); Byte (lo y0); DC_high; Byte (hi y1); Byte (lo y1);
     DC_low; Byte ST7735_RAMWR] in
  tft_set_window x0 y0 x1 y1 st = Done tt (set_bus (bus st ++ sent) st) /\
  wire dc sent =
    [(false, 0x2A); (true, hi x0); (true, lo x0); (true, hi x1); (true, lo x1);
     (false, 0x2B); (true, hi y0); (true, lo y0); (true, hi y1); (true, lo y1);
     (false, 0x2C)] /\
  (forall v, 256 * hi (u16 v) + lo (u16 v) = u16 v).
Proof.
  cbv zeta. split; [apply emits_tft_set_window|]. split; [done|].
  apply be16_big_endian.
Qed.

(** C7. The general-line path from [(0, 0)] to [(4, 2)] plots exactly 5
    pixels, [(0,0) (1,0) (2,1) (3,1) (4,2)], one [tft_draw_pixel] call
    each: the x coordinates go up from 0 to 4 one by one and consecutive y
    coordinates differ by at most 1. *)
Theorem _tft_draw_line_0_0_4_2 (extra : nat) (color : Z) (st : state) :
  let pixels := [(0, 0); (1, 0); (2, 1); (3, 1); (4, 2)] in
  _tft_draw_line (6 + extra) 0 0 4 2 color st =
    Done tt (set_bus (bus st ++
                      mjoin ((fun p => tft_draw_pixel_bus p.1 p.2 color) <$> pixels)) st) /\
  length pixels = 5%nat /\
  pixels.*1 = [0; 1; 2; 3; 4] /\
  Forall (fun d => Z.abs d <= 1) (zip_with Z.sub (tail pixels.*2) pixels.*2).
Proof.
  cbv zeta. split.
  - rewrite _tft_draw_line_run;
      [done | unfold is_i16; lia .. | vm_compute; done | simpl; lia].
  - split; [done|]. split; [done|].
    repeat constructor; simpl; lia.
Qed.

(** C8. From every state whose scratch buffer holds a glyph, and every
    character [c], [tft_print_char c] leaves the cursor and both colours
    unchanged; and for every string [s] of [n] characters, [tft_print s]
    advances [_cursor_x] by exactly [6 * n], on 16 bits, and leaves
    [_cursor_y] and both colours unchanged. *)
Theorem print_cursor_frame (c : Z) (s : list Z) (st : state) :
  70 <= Z.of_nat (length (buffer st)) ->
  is_u16 (_cursor_x st) ->
  (exists st',
     tft_print_char c st = Done tt st' /\
     _cursor_x st' = _cursor_x st /\
     _cursor_y st' = _cursor_y st /\
     _color st' = _color st /\
     _bg_color st' = _bg_color st) /\
  (exists st',
     tft_print s st = Done tt st' /\
     _cursor_x st' = u16 (_cursor_x st + 6 * strlen s) /\
     (_cursor_x st + 6 * strlen s < 2 ^ 16 ->
      _cursor_x st' = _cursor_x st + 6 * strlen s) /\
     _cursor_y st' = _cursor_y st /\
     _color st' = _color st /\
     _bg_color st' = _bg_color st).
Proof.
  intros Hlen Hcx. split.
  - eexists. split; [by apply tft_print_char_run|]. done.
  - destruct (tft_print_frame s st Hlen Hcx)
      as (st' & Hrun & Hx & Hy & Hfg & Hbg & _).
    exists st'. repeat split; try done.
    intros Hfit. rewrite Hx. apply u16_small.
    pose proof (strlen_nonneg s). unfold is_u16 in Hcx. lia.
Qed.

(** C9. For every [(x, y)] and colour, [tft_draw_pixel] sets the window to
    the single offset-corrected point
    [(x + x_offset, y + y_offset, x + x_offset, y + y_offset)] and then
    writes one 16-bit data value, the colour high byte first; it issues no
    block transfer and leaves the scratch buffer as it was. *)
Theorem tft_draw_pixel_single_point (x y color : Z) (st : state) :
  let x' := u16 (x + ST7735_X_OFFSET) in
  let y' := u16 (y + ST7735_Y_OFFSET) in
  let sent :=
    BEGIN_WRITE_bus ++ tft_set_window_bus x' y' x' y' ++
    [DC_high; Byte (u8 (Z.shiftr color 8)); Byte (u8 color)] ++ END_WRITE_bus in
  exists st',
    tft_draw_pixel x y color st = Done tt st' /\
    bus st' = bus st ++ sent /\
    dma_transfers sent = [] /\
    buffer st' = buffer st.
Proof.
  cbv zeta. eexists. split; [apply emits_tft_draw_pixel|].
  split; [done|]. split; [apply dma_transfers_pixel | done].
Qed.

(** C10. For endpoints in the [int16_t] range whose major-axis end, [x1]
    after the internal swaps, is below 32767, the general-line path
    terminates and plots exactly [max |x1 - x0| |y1 - y0| + 1] pixels, one
    [tft_draw_pixel] call for each major-axis coordinate from its start to
    its end. *)
Theorem _tft_draw_line_pixel_count (x0 y0 x1 y1 color : Z) :
  is_i16 x0 -> is_i16 y0 -> is_i16 x1 -> is_i16 y1 ->
  major_end x0 y0 x1 y1 < 32767 ->
  let n := Z.max (Z.abs (x1 - x0)) (Z.abs (y1 - y0)) + 1 in
  let points := _tft_draw_line_points x0 y0 x1 y1 in
  (forall extra st,
     _tft_draw_line (S (Z.to_nat n) + extra) x0 y0 x1 y1 color st =
     Done tt (set_bus (bus st ++
                       mjoin (plot_bus (_tft_draw_line_steep x0 y0 x1 y1) color <$>
                              points)) st)) /\
  Z.of_nat (length points) = n /\
  points.*1 = seqZ (major_start x0 y0 x1 y1) n.
Proof.
  intros Hx0 Hy0 Hx1 Hy1 Hend. cbv zeta. split; [|split].
  - intros extra st. apply _tft_draw_line_run; try done; lia.
  - apply _tft_draw_line_points_length.
  - by apply _tft_draw_line_points_major.
Qed.

(** ** Further properties of the general line *)

(** The swaps leave the endpoints as they were or exchanged, in the
    original or in the transposed coordinates, with the major axis running
    upwards and the minor extent no larger than the major one. *)
Lemma _tft_draw_line_swaps_cases x0 y0 x1 y1 :
  exists steep a0 b0 a1 b1,
    _tft_draw_line_swaps x0 y0 x1 y1 = (steep, (a0, b0, a1, b1)) /\
    a0 <= a1 /\
    Z.abs (b1 - b0) <= a1 - a0 /\
    a1 - a0 = Z.max (Z.abs (x1 - x0)) (Z.abs (y1 - y0)) /\
    ((steep = false /\
      ((a0, b0, a1, b1) = (x0, y0, x1, y1) \/ (a0, b0, a1, b1) = (x1, y1, x0, y0))) \/
     (steep = true /\
      ((a0, b0, a1, b1) = (y0, x0, y1, x1) \/ (a0, b0, a1, b1) = (y1, x1, y0, x0)))).
Proof.
  unfold _tft_draw_line_swaps, _diff.
  destruct (bool_decide _) eqn:Hsteep;
    [apply bool_decide_eq_true in Hsteep | apply bool_decide_eq_false in Hsteep];
    repeat (destruct (decide _) in Hsteep); destruct (decide _);
    do 5 eexists; (split; [reflexivity|]);
    (split; [lia|]); (split; [lia|]); (split; [lia|]); auto.
Qed.

(** The loop variables stay on the ideal line: at iteration [k + i] the
    minor coordinate is [ystart + step * m] with the error term
    [e0 - (k + i) * dy + m * dx] between 0 and [dx]. *)
Lemma line_points_invariant dx dy step ystart e0 n :
  0 <= dy <= dx -> dx < 2 ^ 15 -> step = 1 \/ step = -1 ->
  is_i16 ystart -> is_i16 (ystart + step * dy) ->
  0 <= e0 ->
  forall k x m err,
    0 <= k -> k + Z.of_nat n <= dx + 1 ->
    - 2 ^ 15 <= x -> x + Z.of_nat n <= 2 ^ 15 ->
    0 <= m <= dy ->
    err = e0 - k * dy + m * dx ->
    0 <= err < Z.max dx 1 ->
    forall i p,
      line_points n x (ystart + step * m) dx dy err step !! i = Some p ->
      p.1 = x + Z.of_nat i /\
      exists m',
        p.2 = ystart + step * m' /\ 0 <= m' <= dy /\
        0 <= e0 - (k + Z.of_nat i) * dy + m' * dx < Z.max dx 1.
Proof.
  intros Hdy Hdx Hstep Hys Hye He0.
  induction n as [|n IH]; intros k x m err Hk Hkn Hxlo Hxhi Hm Herr Hrange i p Hp;
    [done|].
  destruct i as [|i].
  - simpl in Hp. injection Hp as <-. simpl. split; [lia|].
    exists m. rewrite Z.add_0_r. split; [done|]. split; [done|]. lia.
  - simpl in Hp. destruct n as [|n]; [by destruct (decide _)|].
    assert (Hi16 : forall z, - 2 ^ 15 <= z < 2 ^ 15 -> i16 z = z)
      by (intros; by apply i16_small).
    rewrite (Hi16 (x + 1)) in Hp by lia.
    rewrite (Hi16 (err - dy)) in Hp by lia.
    replace (x + Z.of_nat (S i)) with (x + 1 + Z.of_nat i) by lia.
    replace (k + Z.of_nat (S i)) with (k + 1 + Z.of_nat i) by lia.
    destruct (decide (err - dy < 0)) as [Hneg|Hpos].
    + assert (Hdx1 : 1 <= dx) by lia.
      assert (Hm1 : m + 1 <= dy).
      { destruct (decide (m + 1 <= dy)); [done|]. exfalso.
        assert ((k + 1) * dy <= dx * dy) by (apply Z.mul_le_mono_nonneg_r; lia).
        assert ((dy + 1) * dx <= (m + 1) * dx) by (apply Z.mul_le_mono_nonneg_r; lia).
        lia. }
      rewrite (Hi16 (err - dy + dx)) in Hp by lia.
      assert (Hy : i16 (ystart + step * m + step) = ystart + step * (m + 1)).
      { replace (ystart + step * m + step) with (ystart + step * (m + 1)) by lia.
        apply Hi16. unfold is_i16 in Hys, Hye. destruct Hstep as [-> | ->]; lia. }
      rewrite Hy in Hp.
      apply (IH (k + 1) (x + 1) (m + 1) (err - dy + dx)); try done; lia.
    + apply (IH (k + 1) (x + 1) m (err - dy)); try done; lia.
Qed.

(** The points of a call whose extent fits an [int16_t]: the [i]-th has
    major coordinate [a0 + i] and minor coordinate [b0 + step * m], where
    the error term [dx / 2 - i * dy + m * dx] is between 0 and [dx]. *)
Lemma _tft_draw_line_points_track x0 y0 x1 y1 :
  is_i16 x0 -> is_i16 y0 -> is_i16 x1 -> is_i16 y1 ->
  Z.max (Z.abs (x1 - x0)) (Z.abs (y1 - y0)) < 2 ^ 15 ->
  let a0 := major_start x0 y0 x1 y1 in
  let b0 := minor_start x0 y0 x1 y1 in
  let a1 := major_end x0 y0 x1 y1 in
  let b1 := minor_end x0 y0 x1 y1 in
  let dx := a1 - a0 in
  let dy := Z.abs (b1 - b0) in
  0 <= dy <= dx /\
  forall i p,
    _tft_draw_line_points x0 y0 x1 y1 !! i = Some p ->
    p.1 = a0 + Z.of_nat i /\
    exists m,
      p.2 - b0 = Z.sgn (b1 - b0) * m /\ 0 <= m <= dy /\
      0 <= dx / 2 - Z.of_nat i * dy + m * dx < Z.max dx 1.
Proof.
  unfold is_i16, _tft_draw_line_points, major_start, minor_start, major_end, minor_end.
  intros Hx0 Hy0 Hx1 Hy1 Hext.
  destruct (_tft_draw_line_swaps_cases x0 y0 x1 y1)
    as (steep & a0 & b0 & a1 & b1 & -> & Hle & Hdy & Hdx & Hcases).
  cbv zeta. split; [lia|].
  assert (Hin : (- 2 ^ 15 <= a0 < 2 ^ 15) /\ (- 2 ^ 15 <= b0 < 2 ^ 15) /\
                (- 2 ^ 15 <= a1 < 2 ^ 15) /\ (- 2 ^ 15 <= b1 < 2 ^ 15)).
  { destruct Hcases as [[_ [H|H]]|[_ [H|H]]]; injection H as -> -> -> ->; lia. }
  destruct Hin as (Ha0 & Hb0 & Ha1 & Hb1).
  intros i p Hp.
  rewrite (i16_small (a1 - a0)) in Hp by lia.
  assert (Hdiff : _diff b1 b0 = Z.abs (b1 - b0))
    by (unfold _diff; destruct (decide (b1 > b0)); lia).
  rewrite Hdiff, (i16_small (Z.abs _)) in Hp by lia.
  rewrite Z.shiftr_div_pow2 in Hp by lia. change (2 ^ 1) with 2 in Hp.
  pose proof (Z.div_mod (a1 - a0) 2 ltac:(lia)) as Hdm.
  pose proof (Z.mod_pos_bound (a1 - a0) 2 ltac:(lia)) as Hmod.
  rewrite (i16_small (_ / 2)) in Hp by lia.
  set (step := if decide (b0 < b1) then 1 else -1) in *.
  assert (Hstep : step = 1 \/ step = -1)
    by (unfold step; destruct (decide (b0 < b1)); auto).
  assert (Hend : b0 + step * Z.abs (b1 - b0) = b1)
    by (unfold step; destruct (decide (b0 < b1)); lia).
  replace b0 with (b0 + step * 0) in Hp at 1 by lia.
  destruct (line_points_invariant (a1 - a0) (Z.abs (b1 - b0)) step b0
              ((a1 - a0) / 2) (Z.to_nat (a1 - a0 + 1))
              ltac:(lia) ltac:(lia) Hstep ltac:(done)
              ltac:(rewrite Hend; done) ltac:(lia)
              0 a0 0 ((a1 - a0) / 2)
              ltac:(lia) ltac:(lia) ltac:(lia) ltac:(lia) ltac:(lia) ltac:(lia)
              ltac:(lia) i p Hp)
    as (Hp1 & m & Hp2 & Hm & Herr).
  split; [done|]. exists m. split; [|split; [done | by rewrite Z.add_0_l in Herr]].
  rewrite Hp2. unfold step. destruct (decide (b0 < b1)).
  - rewrite Z.sgn_pos by lia. lia.
  - destruct (decide (b1 = b0)) as [->|].
    + replace m with 0 by lia. lia.
    + rewrite Z.sgn_neg by lia. lia.
Qed.

(** X1. A general line whose extent fits an [int16_t] stays within half a
    pixel of the ideal line: the call returns, and its [i]-th plotted
    point has major coordinate [a0 + i] and a minor coordinate [b] between
    the two ends with [|2 * dx * (b - b0) - 2 * i * (b1 - b0)| <= dx],
    where [(a0, b0)] and [(a1, b1)] are the ends after the swaps and
    [dx = a1 - a0]. *)
Theorem _tft_draw_line_accuracy (x0 y0 x1 y1 color : Z) :
  is_i16 x0 -> is_i16 y0 -> is_i16 x1 -> is_i16 y1 ->
  Z.max (Z.abs (x1 - x0)) (Z.abs (y1 - y0)) < 2 ^ 15 ->
  major_end x0 y0 x1 y1 < 32767 ->
  let a0 := major_start x0 y0 x1 y1 in
  let b0 := minor_start x0 y0 x1 y1 in
  let a1 := major_end x0 y0 x1 y1 in
  let b1 := minor_end x0 y0 x1 y1 in
  let points := _tft_draw_line_points x0 y0 x1 y1 in
  (forall extra st,
     _tft_draw_line (S (Z.to_nat (a1 - a0 + 1)) + extra) x0 y0 x1 y1 color st =
     Done tt (set_bus (bus st ++
                       mjoin (plot_bus (_tft_draw_line_steep x0 y0 x1 y1) color <$>
                              points)) st)) /\
  forall i p,
    points !! i = Some p ->
    p.1 = a0 + Z.of_nat i /\
    Z.min b0 b1 <= p.2 <= Z.max b0 b1 /\
    Z.abs (2 * (a1 - a0) * (p.2 - b0) - 2 * Z.of_nat i * (b1 - b0)) <= a1 - a0.
Proof.
  intros Hx0 Hy0 Hx1 Hy1 Hext Hend. cbv zeta. split.
  - intros extra st. apply _tft_draw_line_run; try done.
    unfold major_start, major_end.
    destruct (_tft_draw_line_swaps_cases x0 y0 x1 y1)
      as (steep & a0 & b0 & a1 & b1 & -> & _ & _ & <- & _). lia.
  - destruct (_tft_draw_line_points_track x0 y0 x1 y1 Hx0 Hy0 Hx1 Hy1 Hext)
      as [Hdy Htrack].
    intros i p Hp. destruct (Htrack i p Hp) as (Hp1 & m & Hp2 & Hm & Herr).
    split; [done|].
    set (dx := major_end x0 y0 x1 y1 - major_start x0 y0 x1 y1) in *.
    set (b0 := minor_start x0 y0 x1 y1) in *.
    set (b1 := minor_end x0 y0 x1 y1) in *.
    pose proof (Z.div_mod dx 2 ltac:(lia)) as Hdm.
    pose proof (Z.mod_pos_bound dx 2 ltac:(lia)) as Hmod.
    destruct (Z.lt_trichotomy b0 b1) as [Hlt|[Heq|Hgt]].
    + rewrite Z.sgn_pos in Hp2 by lia.
      replace (p.2 - b0) with m by lia.
      replace (Z.abs (b1 - b0)) with (b1 - b0) in * by lia. lia.
    + rewrite Heq, Z.sub_diag in *. simpl in Hp2, Hm. lia.
    + rewrite Z.sgn_neg in Hp2 by lia.
      replace (p.2 - b0) with (- m) by lia.
      replace (Z.abs (b1 - b0)) with (b0 - b1) in * by lia. lia.
Qed.



Lemma i16_range z : is_i16 (i16 z).
Proof.
  unfold is_i16, i16. pose proof (Z.mod_pos_bound (z + 2 ^ 15) (2 ^ 16) ltac:(lia)). lia.
Qed.

Lemma line_loop_no_exit steep dx dy step color fuel :
  forall x0 y0 err st,
    is_i16 x0 ->
    _tft_draw_line_loop fuel steep x0 y0 32767 dx dy err step color st = OutOfFuel.
Proof.
  induction fuel as [|fuel IH]; intros x0 y0 err st Hx0; [done|].
  simpl. rewrite decide_True by (unfold is_i16 in Hx0; lia).
  assert (Hplot : emits (if steep
                         then tft_draw_pixel (u16 y0) (u16 x0) color
                         else tft_draw_pixel (u16 x0) (u16 y0) color)
                        (plot_bus steep color (x0, y0))).
  { unfold plot_bus, plotted. destruct steep; apply emits_tft_draw_pixel. }
  rewrite (bind_Done _ _ _ _ _ (Hplot st)).
  destruct (decide _); apply IH, i16_range.
Qed.

(** X17. A general line whose major-axis end, [x1] after the swaps, is
    32767 never returns: the [int16_t] counter wraps from 32767 to -32768
    and the loop test stays true, so the loop goes on plotting whatever
    the fuel. *)
Theorem _tft_draw_line_never_returns (fuel : nat) (x0 y0 x1 y1 color : Z) (st : state) :
  is_i16 x0 -> is_i16 y0 -> is_i16 x1 -> is_i16 y1 ->
  major_end x0 y0 x1 y1 = 32767 ->
  _tft_draw_line fuel x0 y0 x1 y1 color st = OutOfFuel.
Proof.
  unfold is_i16, _tft_draw_line, major_end. intros Hx0 Hy0 Hx1 Hy1.
  destruct (_tft_draw_line_swaps_cases x0 y0 x1 y1)
    as (steep & a0 & b0 & a1 & b1 & -> & _ & _ & _ & Hcases).
  intros ->. apply line_loop_no_exit. unfold is_i16.
  destruct Hcases as [[_ [H|H]]|[_ [H|H]]]; injection H as -> -> _ ->; lia.
Qed.

(** ** Further properties of the fast lines, rectangles and bitmaps *)

(** Equations between wrapped sums, by the quotients of the wrap-arounds. *)
Ltac u16_lia :=
  repeat match goal with H : _ |- _ => clear H end;
  unfold u16, i16; change (2 ^ 16) with 65536; change (2 ^ 15) with 32768;
  Z.to_euclidean_division_equations; lia.

(** The bytes of one window-and-transfer transaction, as they go out. *)
Lemma wire_block_transfer dc x0 y0 x1 y1 data size repeat :
  wire dc (block_transfer_bus x0 y0 x1 y1 data size repeat) =
  wire dc (tft_set_window_bus x0 y0 x1 y1) ++
  ((fun b => (true, b)) <$> mjoin (replicate (Z.to_nat repeat) data)).
Proof.
  unfold block_transfer_bus, BEGIN_WRITE_bus, END_WRITE_bus.
  destruct ST7735_NO_CS; simpl; by rewrite ?app_nil_r.
Qed.

Lemma wire_draw_pixel dc x y color :
  wire dc (tft_draw_pixel_bus x y color) =
  wire dc (tft_set_window_bus (u16 (x + ST7735_X_OFFSET)) (u16 (y + ST7735_Y_OFFSET))
             (u16 (x + ST7735_X_OFFSET)) (u16 (y + ST7735_Y_OFFSET))) ++
  ((fun b => (true, b)) <$> be16 color).
Proof.
  unfold tft_draw_pixel_bus, BEGIN_WRITE_bus, END_WRITE_bus.
  destruct ST7735_NO_CS; reflexivity.
Qed.

Lemma join_replicate_1 {A : Type} (l : list A) : mjoin (replicate (Z.to_nat 1) l) = l.
Proof. change (mjoin (replicate (Z.to_nat 1) l)) with (l ++ []). apply app_nil_r. Qed.

Lemma join_replicate_fill h color :
  0 <= h ->
  mjoin (replicate (Z.to_nat h) (fill_bytes 1 color)) = fill_bytes h color.
Proof.
  intros _. by change (fill_bytes 1 color) with (be16 color).
Qed.

(** X4. A line from a point to itself puts on the wire the bytes that
    [tft_draw_pixel] puts for that point: the same window and the two
    bytes of the colour, sent as a block transfer instead of two single
    bytes. *)
Theorem tft_draw_line_point_as_pixel (fuel : nat) (x y color : Z) (dc : bool) (st : state) :
  2 <= Z.of_nat (length (buffer st)) ->
  exists st1 st2 sent1 sent2,
    tft_draw_line fuel x y x y color st = Done tt st1 /\
    bus st1 = bus st ++ sent1 /\
    tft_draw_pixel (u16 x) (u16 y) color st = Done tt st2 /\
    bus st2 = bus st ++ sent2 /\
    wire dc sent1 = wire dc sent2 /\
    dma_transfers sent1 = [(2, 1)] /\
    dma_transfers sent2 = [].
Proof.
  intros Hlen. eexists _, _, _, _.
  split.
  { rewrite tft_draw_line_vertical, Z.min_id, Z.max_id, Z.sub_diag.
    change (i16 (0 + 1)) with 1. apply _tft_draw_fast_v_line_run; lia. }
  simpl_state. split; [done|].
  split; [apply emits_tft_draw_pixel|]. simpl_state. split; [done|].
  split; [|split; [apply dma_transfers_block | apply dma_transfers_pixel]].
  rewrite wire_block_transfer, wire_draw_pixel.
  replace (u16 (i16 (x + ST7735_X_OFFSET))) with (u16 (u16 x + ST7735_X_OFFSET))
    by u16_lia.
  replace (u16 (i16 (y + ST7735_Y_OFFSET) + 1 - 1)) with (u16 (u16 y + ST7735_Y_OFFSET))
    by u16_lia.
  replace (u16 (i16 (y + ST7735_Y_OFFSET))) with (u16 (u16 y + ST7735_Y_OFFSET))
    by u16_lia.
  done.
Qed.


(** X6. A fast vertical line of height [h] that the scratch buffer holds
    puts on the wire the bytes of a filled rectangle of width 1 and height
    [h]: the same window and [h] times the colour; the line buffers all
    [2 * h] bytes and sends them once, the rectangle buffers 2 bytes and
    sends them [h] times. *)
Theorem _tft_draw_fast_v_line_as_fill_rect (x y h color : Z) (dc : bool) (st : state) :
  1 <= h ->
  2 * h <= Z.of_nat (length (buffer st)) ->
  2 * h < 2 ^ 16 ->
  exists st1 st2 sent1 sent2,
    _tft_draw_fast_v_line x y h color st = Done tt st1 /\
    bus st1 = bus st ++ sent1 /\
    tft_fill_rect (u16 x) (u16 y) 1 h color st = Done tt st2 /\
    bus st2 = bus st ++ sent2 /\
    wire dc sent1 = wire dc sent2 /\
    dma_transfers sent1 = [(2 * h, 1)] /\
    dma_transfers sent2 = [(2, h)].
Proof.
  intros Hh Hlen Hmax. eexists _, _, _, _.
  split; [apply _tft_draw_fast_v_line_run; lia|]. simpl_state. split; [done|].
  split; [apply tft_fill_rect_run; lia|]. simpl_state. split; [done|].
  split; [|split; apply dma_transfers_block].
  rewrite !wire_block_transfer.
  replace (u16 (u16 (u16 x + ST7735_X_OFFSET) + 1 - 1))
    with (u16 (i16 (x + ST7735_X_OFFSET))) by u16_lia.
  replace (u16 (u16 (u16 y + ST7735_Y_OFFSET) + h - 1))
    with (u16 (i16 (y + ST7735_Y_OFFSET) + h - 1)) by u16_lia.
  replace (u16 (u16 x + ST7735_X_OFFSET)) with (u16 (i16 (x + ST7735_X_OFFSET)))
    by u16_lia.
  replace (u16 (u16 y + ST7735_Y_OFFSET)) with (u16 (i16 (y + ST7735_Y_OFFSET)))
    by u16_lia.
  by rewrite join_replicate_fill, join_replicate_1 by lia.
Qed.


(** X8. [tft_draw_bitmap] leaves the driver's variables and the scratch
    buffer alone and issues one block transfer, with repeat 1, of the
    caller's pixels; its size is [2 * w * h] cut to 16 bits, so a bitmap
    of fewer than 32768 pixels goes out whole, its first [2 * w * h] bytes
    once, and one of exactly 32768 pixels not at all. *)
Theorem tft_draw_bitmap_transfer (x y w h : Z) (bitmap : list Z) (dc : bool) (st : state) :
  0 <= w -> 0 <= h -> w * h < 2 ^ 30 ->
  let x' := u16 (x + ST7735_X_OFFSET) in
  let y' := u16 (y + ST7735_Y_OFFSET) in
  let size := (2 * w * h) mod 2 ^ 16 in
  let sent :=
    block_transfer_bus x' y' (u16 (x' + w - 1)) (u16 (y' + h - 1))
      (take (Z.to_nat size) bitmap) size 1 in
  tft_draw_bitmap x y w h bitmap st = Done tt (set_bus (bus st ++ sent) st) /\
  dma_transfers sent = [(size, 1)] /\
  (w * h < 2 ^ 15 ->
   wire dc sent =
   wire dc (tft_set_window_bus x' y' (u16 (x' + w - 1)) (u16 (y' + h - 1))) ++
   ((fun b => (true, b)) <$> take (Z.to_nat (2 * w * h)) bitmap)) /\
  (w * h = 2 ^ 15 -> size = 0).
Proof.
  intros Hw Hh Hwh. cbv zeta.
  assert (Hsize : u16 (Z.shiftl (i32 (w * h)) 1) = (2 * w * h) mod 2 ^ 16).
  { assert (Hpos : 0 <= w * h) by nia.
    assert (Hi32 : i32 (w * h) = w * h) by (unfold i32; rewrite Z.mod_small; lia).
    rewrite Hi32. unfold u16. rewrite Z.shiftl_mul_pow2 by lia. f_equal. lia. }
  split; [|split; [apply dma_transfers_block|split]].
  - rewrite <- Hsize. apply emits_tft_draw_bitmap.
  - intros Hsmall. rewrite wire_block_transfer.
    rewrite (Z.mod_small (2 * w * h)) by nia.
    by rewrite join_replicate_1.
  - intros Hfull. replace (2 * w * h) with (2 * (w * h)) by lia.
    by rewrite Hfull.
Qed.

(** The four transactions of [tft_draw_rect]. *)
Lemma tft_draw_rect_run (x y w h color : Z) (st : state) :
  0 <= w < 2 ^ 15 -> 0 <= h < 2 ^ 15 ->
  2 * w <= Z.of_nat (length (buffer st)) ->
  2 * h <= Z.of_nat (length (buffer st)) ->
  let left := u16 (x + ST7735_X_OFFSET) in
  let top := u16 (y + ST7735_Y_OFFSET) in
  let right := u16 (x + ST7735_X_OFFSET + w - 1) in
  let bottom := u16 (y + ST7735_Y_OFFSET + h - 1) in
  exists st',
    tft_draw_rect x y w h color st = Done tt st' /\
    bus st' = bus st ++
      block_transfer_bus left top right top (fill_bytes w color) (2 * w) 1 ++
      block_transfer_bus left bottom right bottom (fill_bytes w color) (2 * w) 1 ++
      block_transfer_bus left top left bottom (fill_bytes h color) (2 * h) 1 ++
      block_transfer_bus right top right bottom (fill_bytes h color) (2 * h) 1 /\
    length (buffer st') = length (buffer st) /\
    (_cursor_x st', _cursor_y st', _color st', _bg_color st') =
    (_cursor_x st, _cursor_y st, _color st, _bg_color st) /\
    str st' = str st.
Proof.
  intros Hw Hh Hlw Hlh. cbv zeta. unfold tft_draw_rect.
  rewrite (i16_small w), (i16_small h) by lia.
  pose proof (length_fill_bytes w color ltac:(lia)) as Hfw.
  pose proof (length_fill_bytes h color ltac:(lia)) as Hfh.
  rewrite (bind_Done _ _ _ _ _
             (_tft_draw_fast_h_line_run _ _ w color st ltac:(lia) Hlw ltac:(lia))).
  set (st1 := set_bus _ _).
  assert (Hl1 : length (buffer st1) = length (buffer st))
    by (unfold st1; simpl_state; rewrite length_app, length_drop; lia).
  rewrite (bind_Done _ _ _ _ _
             (_tft_draw_fast_h_line_run _ _ w color st1 ltac:(lia) ltac:(lia) ltac:(lia))).
  set (st2 := set_bus _ _).
  assert (Hl2 : length (buffer st2) = length (buffer st))
    by (unfold st2; simpl_state; rewrite length_app, length_drop; lia).
  rewrite (bind_Done _ _ _ _ _
             (_tft_draw_fast_v_line_run _ _ h color st2 ltac:(lia) ltac:(lia) ltac:(lia))).
  set (st3 := set_bus _ _).
  assert (Hl3 : length (buffer st3) = length (buffer st))
    by (unfold st3; simpl_state; rewrite length_app, length_drop; lia).
  rewrite (_tft_draw_fast_v_line_run _ _ h color st3 ltac:(lia) ltac:(lia) ltac:(lia)).
  eexists. split; [reflexivity|]. split; [|split; [|split; [|done]]].
  - unfold st3, st2, st1. simpl_state. rewrite <- !app_assoc.
    replace (u16 (i16 (i16 x + ST7735_X_OFFSET))) with (u16 (x + ST7735_X_OFFSET))
      by u16_lia.
    replace (u16 (i16 (i16 y + ST7735_Y_OFFSET))) with (u16 (y + ST7735_Y_OFFSET))
      by u16_lia.
    replace (u16 (i16 (i16 x + ST7735_X_OFFSET) + w - 1))
      with (u16 (x + ST7735_X_OFFSET + w - 1)) by u16_lia.
    replace (u16 (i16 (i16 (y + h - 1) + ST7735_Y_OFFSET)))
      with (u16 (y + ST7735_Y_OFFSET + h - 1)) by u16_lia.
    replace (u16 (i16 (i16 y + ST7735_Y_OFFSET) + h - 1))
      with (u16 (y + ST7735_Y_OFFSET + h - 1)) by u16_lia.
    replace (u16 (i16 (i16 (x + w - 1) + ST7735_X_OFFSET)))
      with (u16 (x + ST7735_X_OFFSET + w - 1)) by u16_lia.
    done.
  - simpl_state. rewrite length_app, length_drop. lia.
  - done.
Qed.

(** X9. [tft_draw_rect] draws the outline of the rectangle that
    [tft_fill_rect] fills: four transactions, whose windows are the top
    row, the bottom row, the left column and the right column of
    [(x', y', x' + w - 1, y' + h - 1)], each streaming the colour once per
    pixel of the edge. *)
Theorem tft_draw_rect_edges (x y w h color : Z) (st : state) :
  0 <= w < 2 ^ 15 -> 0 <= h < 2 ^ 15 ->
  2 * w <= Z.of_nat (length (buffer st)) ->
  2 * h <= Z.of_nat (length (buffer st)) ->
  let left := u16 (x + ST7735_X_OFFSET) in
  let top := u16 (y + ST7735_Y_OFFSET) in
  let right := u16 (x + ST7735_X_OFFSET + w - 1) in
  let bottom := u16 (y + ST7735_Y_OFFSET + h - 1) in
  exists st',
    tft_draw_rect x y w h color st = Done tt st' /\
    bus st' = bus st ++
      block_transfer_bus left top right top (fill_bytes w color) (2 * w) 1 ++
      block_transfer_bus left bottom right bottom (fill_bytes w color) (2 * w) 1 ++
      block_transfer_bus left top left bottom (fill_bytes h color) (2 * h) 1 ++
      block_transfer_bus right top right bottom (fill_bytes h color) (2 * h) 1 /\
    length (buffer st') = length (buffer st) /\
    (_cursor_x st', _cursor_y st', _color st', _bg_color st') =
    (_cursor_x st, _cursor_y st, _color st, _bg_color st).
Proof.
  intros Hw Hh Hlw Hlh. cbv zeta.
  destruct (tft_draw_rect_run x y w h color st Hw Hh Hlw Hlh)
    as (st' & Hrun & Hbus & Hlen & Hdisp & _).
  by exists st'.
Qed.

(** ** Further properties of text *)

(** X10. [tft_print] lays the characters of a string out from left to
    right, 6 pixels apart on 16 bits, all on the row of the cursor and in
    the current colours: the [k]-th character is one transaction whose
    window starts at [_cursor_x + 6 * k] and which streams the 70 bytes of
    its glyph; nothing is wrapped or clipped, and [_cursor_x] ends 6
    pixels after the last character. *)
Theorem tft_print_layout (s : list Z) (st : state) :
  70 <= Z.of_nat (length (buffer st)) ->
  is_u16 (_cursor_x st) ->
  exists st',
    tft_print s st = Done tt st' /\
    bus st' = bus st ++
      mjoin (imap (fun k c =>
                     let cx := u16 (_cursor_x st + 6 * Z.of_nat k) in
                     block_transfer_bus cx (_cursor_y st) (u16 (cx + 4)) (u16 (cx + 6))
                       (glyph_bytes c (_color st) (_bg_color st)) 70 1)
                  (c_chars s)) /\
    _cursor_x st' = u16 (_cursor_x st + 6 * Z.of_nat (length (c_chars s))).
Proof.
  revert st. induction s as [|c s IH]; intros st Hlen Hcx; simpl.
  - exists st. rewrite app_nil_r, Z.add_0_r, u16_small by done. done.
  - destruct (decide (c = 0)) as [_|_].
    { exists st. simpl. rewrite app_nil_r, Z.add_0_r, u16_small by done. done. }
    rewrite (bind_Done _ _ _ _ _ (tft_print_char_run c st Hlen)).
    rewrite bind_get. unfold modify at 1.
    erewrite bind_Done by reflexivity.
    set (st1 := set_cursor_x _ _).
    destruct (IH st1) as (st' & Hrun & Hbus & Hx).
    { unfold st1. simpl_state. rewrite length_app, length_drop, length_glyph_bytes. lia. }
    { unfold st1, is_u16, u16. simpl_state. apply Z.mod_pos_bound. lia. }
    exists st'. split; [exact Hrun|].
    unfold st1 in Hbus, Hx. simpl_state. split.
    + rewrite Hbus, <- app_assoc. f_equal.
      cbv zeta. rewrite imap_cons.
      change (mjoin (?x :: ?l)) with (x ++ mjoin l).
      change (6 * Z.of_nat 0) with 0.
      rewrite Z.add_0_r, (u16_small (_cursor_x st)) by done.
      do 2 f_equal. apply imap_ext. intros k ch _. simpl.
      rewrite u16_add_l.
      by replace (_cursor_x st + 6 + 6 * Z.of_nat k)
        with (_cursor_x st + 6 * Z.of_nat (S k)) by lia.
    + rewrite Hx, u16_add_l. f_equal. simpl length. lia.
Qed.

Lemma land_bit x i :
  0 <= i -> Z.land x (Z.shiftl 1 i) <> 0 <-> Z.testbit x i = true.
Proof.
  intros Hi. rewrite Z.shiftl_1_l. split.
  - intros H. destruct (Z.testbit x i) eqn:E; [done|]. exfalso. apply H.
    apply Z.bits_inj'. intros n Hn.
    rewrite Z.land_spec, Z.pow2_bits_eqb, Z.bits_0 by lia.
    destruct (Z.eqb_spec i n) as [<-|_]; [by rewrite E | apply andb_false_r].
  - intros E H.
    assert (Hbit : Z.testbit (Z.land x (2 ^ i)) i = false) by (rewrite H; apply Z.bits_0).
    rewrite Z.land_spec, Z.pow2_bits_eqb, E, Z.eqb_refl in Hbit by lia. done.
Qed.

Lemma glyph_pixel_testbit c fg bg i j :
  0 <= i ->
  glyph_pixel c fg bg i j = if Z.testbit (font (5 * c + j)) i then fg else bg.
Proof.
  intros Hi. unfold glyph_pixel. rewrite Z.shiftl_mul_pow2 by lia.
  replace (c + c * 2 ^ 2 + j) with (5 * c + j) by lia.
  destruct (decide _) as [H|H].
  - apply land_bit in H; [|done]. by rewrite H.
  - destruct (Z.testbit _ i) eqn:E; [|done]. exfalso. apply H. by apply land_bit.
Qed.

Lemma glyph_bytes_lookup c fg bg i j :
  0 <= i < 7 -> 0 <= j < 5 ->
  glyph_bytes c fg bg !! Z.to_nat (2 * (5 * i + j)) =
    Some (u8 (Z.shiftr (glyph_pixel c fg bg i j) 8)) /\
  glyph_bytes c fg bg !! Z.to_nat (2 * (5 * i + j) + 1) =
    Some (u8 (glyph_pixel c fg bg i j)).
Proof.
  intros Hi Hj.
  assert (Hi' : i = 0 \/ i = 1 \/ i = 2 \/ i = 3 \/ i = 4 \/ i = 5 \/ i = 6) by lia.
  assert (Hj' : j = 0 \/ j = 1 \/ j = 2 \/ j = 3 \/ j = 4) by lia.
  destruct Hi' as [->|[->|[->|[->|[->|[->| ->]]]]]];
    destruct Hj' as [->|[->|[->|[->| ->]]]]; split; reflexivity.
Qed.

(** X11. [tft_print_char] rasterises bit [i] of the [j]-th column byte of
    the glyph to the pixel in row [i], column [j] of the 5 by 7 cell: the
    two bytes at index [2 * (5 * i + j)] of the scratch buffer are the
    foreground colour, high byte first, when the bit is set and the
    background colour when it is clear; the 70 bytes go out in one block
    transfer. *)
Theorem tft_print_char_pixels (c i j : Z) (st : state) :
  70 <= Z.of_nat (length (buffer st)) ->
  0 <= i < 7 -> 0 <= j < 5 ->
  let colour := if Z.testbit (font (5 * c + j)) i then _color st else _bg_color st in
  exists st' sent,
    tft_print_char c st = Done tt st' /\
    buffer st' !! Z.to_nat (2 * (5 * i + j)) = Some (u8 (Z.shiftr colour 8)) /\
    buffer st' !! Z.to_nat (2 * (5 * i + j) + 1) = Some (u8 colour) /\
    drop 70 (buffer st') = drop 70 (buffer st) /\
    bus st' = bus st ++ sent /\
    dma_transfers sent = [(70, 1)].
Proof.
  intros Hlen Hi Hj. cbv zeta. eexists _, _.
  split; [by apply tft_print_char_run|]. simpl_state.
  destruct (glyph_bytes_lookup c (_color st) (_bg_color st) i j Hi Hj) as [Hhi Hlo].
  rewrite glyph_pixel_testbit in Hhi, Hlo by lia.
  split; [|split; [|split; [|split; [done | apply dma_transfers_block]]]].
  - rewrite lookup_app_l by (rewrite length_glyph_bytes; lia). done.
  - rewrite lookup_app_l by (rewrite length_glyph_bytes; lia). done.
  - by rewrite drop_app_length' by done.
Qed.

(** X12. What the setters store is what [tft_print_char] uses: after
    [tft_set_cursor], [tft_set_color] and [tft_set_background_color],
    whatever the cursor and the colours were before, the character goes
    to the window that starts at the offset-corrected cursor, in the two
    colours just set; the setters themselves put nothing on the bus. *)
Theorem setters_then_print_char (x y fg bg c : Z) (st : state) :
  70 <= Z.of_nat (length (buffer st)) ->
  let x' := u16 (x + ST7735_X_OFFSET) in
  let y' := u16 (y + ST7735_Y_OFFSET) in
  exists st0 st',
    (tft_set_cursor x y;; tft_set_color fg;; tft_set_background_color bg) st =
      Done tt st0 /\
    bus st0 = bus st /\ buffer st0 = buffer st /\
    (_cursor_x st0, _cursor_y st0, _color st0, _bg_color st0) = (x', y', fg, bg) /\
    tft_print_char c st0 = Done tt st' /\
    bus st' = bus st ++
      block_transfer_bus x' y' (u16 (x' + 4)) (u16 (x' + 6)) (glyph_bytes c fg bg) 70 1 /\
    (_cursor_x st', _cursor_y st', _color st', _bg_color st') = (x', y', fg, bg).
Proof.
  intros Hlen. cbv zeta. eexists _, _.
  split; [reflexivity|]. simpl_state. do 3 (split; [done|]).
  split; [by apply tft_print_char_run|]. done.
Qed.

(** ** What every call keeps *)

Lemma wf_state_buffer_bus b t st :
  length b = length (buffer st) -> wf_state st -> wf_state (set_bus t (set_buffer b st)).
Proof. intros Hb (? & ? & ? & ?). unfold wf_state. simpl_state. by rewrite Hb. Qed.

Lemma length_block_drop blk n (buf : list Z) :
  Z.of_nat (length blk) = n -> n <= Z.of_nat (length buf) ->
  length (blk ++ drop (Z.to_nat n) buf) = length buf.
Proof. intros. rewrite length_app, length_drop. lia. Qed.

(** A call within the contract returns in a well-formed state, with the
    colours and [_cursor_y] as they were, and [_cursor_x] too unless the
    call prints a string. *)
Lemma call_keeps p st :
  35 <= ST7735_WIDTH < 2 ^ 15 ->
  wf_state st ->
  within_contract p ->
  exists st',
    call p st = Done tt st' /\
    wf_state st' /\
    (_color st', _bg_color st', _cursor_y st') = (_color st, _bg_color st, _cursor_y st) /\
    (prints_string p = false -> _cursor_x st' = _cursor_x st /\ str st' = str st).
Proof.
  intros HW Hwf Hp. pose proof Hwf as (Hcx & Hcy & Hbuf & Hstr).
  rewrite buffer_capacity_eq in Hbuf.
  assert (Hcap : Z.of_nat (length (buffer st)) = 2 * ST7735_WIDTH) by lia.
  assert (Hfill : forall n color t,
            0 <= n <= ST7735_WIDTH ->
            wf_state (set_bus t (set_buffer (fill_bytes n color ++
                                             drop (Z.to_nat (2 * n)) (buffer st)) st))).
  { intros n color t Hn. apply wf_state_buffer_bus; [|done].
    apply length_block_drop; [apply length_fill_bytes|]; lia. }
  destruct p as [x y color | x y w h color | x y w h bitmap | x y h color
                | x y w color | x y w h color | fuel x0 y0 x1 y1 color
                | c | s | num]; simpl in Hp |- *.
  - eexists. split; [apply emits_tft_draw_pixel|]. done.
  - eexists. split; [apply tft_fill_rect_run; lia|]. split; [by apply Hfill | done].
  - eexists. split; [apply emits_tft_draw_bitmap|]. done.
  - eexists. split; [apply _tft_draw_fast_v_line_run; lia|].
    split; [by apply Hfill | done].
  - eexists. split; [apply _tft_draw_fast_h_line_run; lia|].
    split; [by apply Hfill | done].
  - destruct (tft_draw_rect_run x y w h color st ltac:(lia) ltac:(lia) ltac:(lia) ltac:(lia))
      as (st' & Hrun & _ & Hlen & Hdisp & Hs).
    exists st'. split; [done|]. injection Hdisp as Hx Hy Hfg Hbg.
    split; [|by rewrite Hx, Hy, Hfg, Hbg, Hs].
    unfold wf_state. rewrite Hx, Hy, Hlen, Hs, buffer_capacity_eq. done.
  - destruct Hp as (Hx0 & Hy0 & Hx1 & Hy1 & Hp). unfold is_i16 in *.
    unfold tft_draw_line. unfold tft_draw_line_branch in *.
    destruct (decide (x0 = x1)) as [->|Hx]; [|destruct (decide (y0 = y1)) as [->|Hy]].
    + destruct (decide (y0 > y1)); rewrite i16_small by lia;
        (eexists; split; [apply _tft_draw_fast_v_line_run; lia|]);
        (split; [apply Hfill; lia | done]).
    + destruct (decide (x0 > x1)); rewrite i16_small by lia;
        (eexists; split; [apply _tft_draw_fast_h_line_run; lia|]);
        (split; [apply Hfill; lia | done]).
    + destruct Hp as [Hend Hfuel].
      eexists. split; [apply _tft_draw_line_run; try done; lia|]. done.
  - eexists. split; [apply tft_print_char_run; lia|].
    split; [|done]. apply wf_state_buffer_bus; [|done].
    apply (length_block_drop _ 70); [done | lia].
  - destruct (tft_print_frame s st ltac:(lia) Hcx)
      as (st' & Hrun & Hx & Hy & Hfg & Hbg & [Hlen _] & Hs & _).
    exists st'. split; [done|]. split; [|by rewrite Hy, Hfg, Hbg].
    unfold wf_state. rewrite Hx, Hy, Hlen, Hs, buffer_capacity_eq.
    split; [|done]. unfold is_u16, u16. apply Z.mod_pos_bound. lia.
  - destruct (tft_print_number_run num st Hp Hstr)
      as (ds & Hdig & _ & Hl & _ & _ & Hrun).
    set (field := number_field _ ds) in *.
    destruct (tft_print_frame field (set_str (field ++ [0]) st) ltac:(simpl_state; lia) Hcx)
      as (st' & Hrun' & Hx & Hy & Hfg & Hbg & [Hlen _] & Hs & _).
    exists st'. rewrite Hrun. split; [done|]. simpl_state.
    split; [|by rewrite Hy, Hfg, Hbg].
    unfold wf_state. rewrite Hx, Hy, Hlen, Hs, buffer_capacity_eq. simpl_state.
    split; [unfold is_u16, u16; apply Z.mod_pos_bound; lia|].
    split; [done|]. split; [done|].
    rewrite length_app. unfold field.
    rewrite number_field_length by (destruct (bool_decide _); lia). done.
Qed.

(** X13. Every call within the contract returns in a state that is again
    well formed (the cursor in 16 bits, both arrays at their declared
    sizes); no call changes the colours or [_cursor_y]; and only
    [tft_print] and [tft_print_number] change [_cursor_x] or the number
    string. *)
Theorem call_keeps_state (p : primitive) (st : state) :
  35 <= ST7735_WIDTH < 2 ^ 15 ->
  wf_state st ->
  within_contract p ->
  exists st',
    call p st = Done tt st' /\
    wf_state st' /\
    (_color st', _bg_color st', _cursor_y st') = (_color st, _bg_color st, _cursor_y st) /\
    (prints_string p = false -> _cursor_x st' = _cursor_x st /\ str st' = str st).
Proof. apply call_keeps. Qed.

(** X14. A program that makes only calls within the contract, however
    many and in whatever order, never stores outside the scratch buffer or
    the number string: it returns, in a well-formed state, with the
    colours and [_cursor_y] it started from. *)
Theorem calls_never_fault (ps : list primitive) (st : state) :
  35 <= ST7735_WIDTH < 2 ^ 15 ->
  wf_state st ->
  Forall within_contract ps ->
  exists st',
    calls ps st = Done tt st' /\
    wf_state st' /\
    (_color st', _bg_color st', _cursor_y st') = (_color st, _bg_color st, _cursor_y st).
Proof.
  intros HW Hwf Hps. revert st Hwf.
  induction Hps as [|p ps Hp _ IH]; intros st Hwf; simpl.
  - by exists st.
  - destruct (call_keeps p st HW Hwf Hp) as (st1 & Hrun & Hwf1 & Hdisp & _).
    destruct (IH st1 Hwf1) as (st' & Hrun' & Hwf' & Hdisp').
    exists st'. rewrite (bind_Done _ _ _ _ _ Hrun).
    split; [done|]. split; [done|]. by rewrite Hdisp', Hdisp.
Qed.

(** X15. [tft_print_number] moves the cursor by the same 66 pixels, on 16
    bits, whatever the number: it prints 11 characters, leaves them and
    their terminator in the number string, and changes neither
    [_cursor_y] nor the colours. *)
Theorem tft_print_number_advance (num : Z) (st : state) :
  - 2 ^ 31 < num < 2 ^ 31 ->
  length (str st) = 12%nat ->
  70 <= Z.of_nat (length (buffer st)) ->
  is_u16 (_cursor_x st) ->
  exists st' field sent,
    tft_print_number num st = Done tt st' /\
    _cursor_x st' = u16 (_cursor_x st + 66) /\
    (_cursor_y st', _color st', _bg_color st') = (_cursor_y st, _color st, _bg_color st) /\
    str st' = field ++ [0] /\
    strlen field = 11 /\
    bus st' = bus st ++ sent /\
    dma_transfers sent = replicate 11 (70, 1).
Proof.
  intros Hnum Hstr Hlen Hcx.
  destruct (tft_print_number_run num st Hnum Hstr)
    as (ds & Hdig & _ & Hl & _ & _ & Hrun).
  set (field := number_field _ ds) in *.
  assert (Hfield : strlen field = 11).
  { rewrite strlen_nonzero by by apply number_field_nonzero.
    unfold field. rewrite number_field_length by (destruct (bool_decide _); lia). done. }
  destruct (tft_print_frame field (set_str (field ++ [0]) st) Hlen Hcx)
    as (st' & Hrun' & Hx & Hy & Hfg & Hbg & _ & Hs & sent & Hbus & Hdma).
  simpl_state. rewrite Hfield in Hx, Hdma.
  exists st', field, sent. rewrite Hrun.
  split; [done|]. split; [done|]. split; [by rewrite Hy, Hfg, Hbg|]. done.
Qed.

(** ** Start-up *)

Lemma on_bus_emits {B : Type} m l tl (k : timeline -> M B) st :
  emits m l ->
  (on_bus m tl ≫= k) st = k (tl ++ (On_bus <$> l)) (set_bus (bus st ++ l) st).
Proof.
  intros Hm. apply bind_Done. unfold on_bus. rewrite Hm. simpl_state.
  by rewrite drop_app_length.
Qed.

Lemma on_bus_emits_last m l tl st :
  emits m l ->
  on_bus m tl st = Done (tl ++ (On_bus <$> l)) (set_bus (bus st ++ l) st).
Proof.
  intros Hm. unfold on_bus. rewrite Hm. simpl_state. by rewrite drop_app_length.
Qed.

Lemma off_bus_step {B : Type} e tl (k : timeline -> M B) st :
  (off_bus e tl ≫= k) st = k (tl ++ [e]) st.
Proof. done. Qed.

Lemma emits_write_data_8 v : emits (write_data_8 v) [DC_high; Byte v].
Proof. apply (emits_bind _ _ [_] [_]); apply emits_emit. Qed.

Lemma bus_of_app tl1 tl2 : bus_of (tl1 ++ tl2) = bus_of tl1 ++ bus_of tl2.
Proof. apply omap_app. Qed.

Lemma bus_of_on_bus l : bus_of (On_bus <$> l) = l.
Proof.
  induction l as [|e l IH]; [done|].
  change (bus_of (On_bus <$> e :: l)) with (e :: bus_of (On_bus <$> l)).
  by rewrite IH.
Qed.

(** X16. [tft_init] returns from every state and leaves the driver's
    variables and the scratch buffer alone.  It configures the SPI, holds
    RESET low for 50 ms and waits 50 ms more before any bus traffic; then,
    in one transaction: sleep-out followed by 120 ms, memory access
    control 0xA8, 16-bit colour mode, the two 16-byte gamma tables as
    block transfers with repeat 1 from the tables themselves, 10 ms,
    inversion on, normal mode on, 10 ms, display on, 10 ms. *)
Theorem tft_init_timeline (dc : bool) (st : state) :
  let tl :=
    [SPI_configured; RESET_is_low; Waited 50; RESET_is_high; Waited 50] ++
    (On_bus <$> BEGIN_WRITE_bus ++ [DC_low; Byte 0x11]) ++
    [Waited 120] ++
    (On_bus <$> [DC_low; Byte 0x36; DC_high; Byte 0xA8;
                 DC_low; Byte 0x3A; DC_high; Byte 0x05;
                 DC_low; Byte 0xE0; DC_high; Dma gamma_p 16 1;
                 DC_low; Byte 0xE1; DC_high; Dma gamma_n 16 1]) ++
    [Waited 10] ++
    (On_bus <$> [DC_low; Byte 0x21; DC_low; Byte 0x13]) ++
    [Waited 10] ++
    (On_bus <$> [DC_low; Byte 0x29]) ++
    [Waited 10] ++
    (On_bus <$> END_WRITE_bus) in
  tft_init st = Done tl (set_bus (bus st ++ bus_of tl) st) /\
  wire dc (bus_of tl) =
    [(false, 0x11); (false, 0x36); (true, 0xA8); (false, 0x3A); (true, 0x05);
     (false, 0xE0)] ++ ((fun b => (true, b)) <$> gamma_p) ++
    [(false, 0xE1)] ++ ((fun b => (true, b)) <$> gamma_n) ++
    [(false, 0x21); (false, 0x13); (false, 0x29)] /\
  dma_transfers (bus_of tl) = [(16, 1); (16, 1)].
Proof.
  cbv zeta. split; [|split].
  - unfold tft_init, SPI_init, RESET_LOW, RESET_HIGH, Delay_Ms.
    rewrite !off_bus_step.
    rewrite (on_bus_emits _ _ _ _ _ emits_BEGIN_WRITE).
    rewrite (on_bus_emits _ _ _ _ _ (emits_write_command_8 _)), off_bus_step.
    rewrite (on_bus_emits _ _ _ _ _ (emits_write_command_8 _)).
    rewrite (on_bus_emits _ _ _ _ _ (emits_write_data_8 _)).
    rewrite (on_bus_emits _ _ _ _ _ (emits_write_command_8 _)).
    rewrite (on_bus_emits _ _ _ _ _ (emits_write_data_8 _)).
    rewrite (on_bus_emits _ _ _ _ _ (emits_write_command_8 _)).
    rewrite (on_bus_emits _ _ _ _ _ (emits_emit DC_high)).
    rewrite (on_bus_emits _ _ _ _ _ (emits_emit (Dma gamma_p 16 1))).
    rewrite (on_bus_emits _ _ _ _ _ (emits_write_command_8 _)).
    rewrite (on_bus_emits _ _ _ _ _ (emits_emit DC_high)).
    rewrite (on_bus_emits _ _ _ _ _ (emits_emit (Dma gamma_n 16 1))), off_bus_step.
    rewrite (on_bus_emits _ _ _ _ _ (emits_write_command_8 _)).
    rewrite (on_bus_emits _ _ _ _ _ (emits_write_command_8 _)), off_bus_step.
    rewrite (on_bus_emits _ _ _ _ _ (emits_write_command_8 _)), off_bus_step.
    rewrite (on_bus_emits_last _ _ _ _ emits_END_WRITE).
    simpl_state. rewrite !bus_of_app, !bus_of_on_bus, !fmap_app.
    simpl. rewrite <- !app_assoc. simpl. done.
  - rewrite !bus_of_app, !bus_of_on_bus. unfold BEGIN_WRITE_bus, END_WRITE_bus.
    destruct ST7735_NO_CS; reflexivity.
  - rewrite !bus_of_app, !bus_of_on_bus. unfold BEGIN_WRITE_bus, END_WRITE_bus.
    destruct ST7735_NO_CS; reflexivity.
Qed.

End Driver.

(** ** The properties at the example configuration *)

(** C1. [tft_set_cursor(0, 10)] puts the cursor at (1, 36); the window
    that [tft_print_char('A')] then sets is columns 1 to 5 and rows 36 to
    7: its last row is [_cursor_x + 6], not [_cursor_y + 6 = 42], so it
    does not span the 7 rows of the glyph.  The rest is as specified: the
    70 bytes of the glyph are in the scratch buffer row after row, the
    foreground colour 0x0000 where the glyph has a bit and the background
    0xFFFF elsewhere, and go out in one block transfer with repeat 1. *)
Theorem tft_print_char_window_rows :
  exists st st',
    tft_set_cursor 1 26 0 10 example_state = Done tt st /\
    (_cursor_x st, _cursor_y st) = (1, 36) /\
    tft_print_char false example_font 65 st = Done tt st' /\
    bus st' =
      [CS_low; DC_low; Byte 0x2A; DC_high; Byte 0; Byte 1; DC_high; Byte 0; Byte 5;
       DC_low; Byte 0x2B; DC_high; Byte 0; Byte 36; DC_high; Byte 0; Byte 7;
       DC_low; Byte 0x2C; DC_high; Dma (take 70 (buffer st')) 70 1; CS_high] /\
    bus st' <> block_transfer_bus false 1 36 5 42 (take 70 (buffer st')) 70 1 /\
    take 10 (buffer st') = [255; 255; 0; 0; 0; 0; 0; 0; 255; 255] /\
    take 10 (drop 10 (buffer st')) = [0; 0; 255; 255; 255; 255; 255; 255; 0; 0].
Proof.
  eexists _, _. split; [reflexivity|]. split; [reflexivity|].
  split; [vm_compute; reflexivity|].
  split; [vm_compute; reflexivity|].
  split; [vm_compute; discriminate|].
  split; vm_compute; reflexivity.
Qed.

(** C2, as stated, fails: a vertical line does not repeat buffered bytes
    over its height.  With height 1 it writes 2 bytes and with height 3 it
    writes 6, each sent with repeat count 1; and on a panel mounted 80
    wide and 160 high, whose scratch buffer has 160 bytes, a vertical line
    of the panel's height stores outside the buffer. *)
Lemma fast_v_line_writes_its_height :
  (exists st1 st3,
     _tft_draw_fast_v_line 1 26 false 0 0 1 0xF800 example_state = Done tt st1 /\
     dma_transfers (bus st1) = [(2, 1)] /\
     _tft_draw_fast_v_line 1 26 false 0 0 3 0xF800 example_state = Done tt st3 /\
     dma_transfers (bus st3) = [(6, 1)] /\
     dma_transfers (bus st3) <> [(2, 3)] /\
     take 6 (buffer st3) = [0xF8; 0; 0xF8; 0; 0xF8; 0]) /\
  _tft_draw_fast_v_line 1 26 false 0 0 160 0xF800
    (set_buffer (replicate 160 0) example_state) = Fault.
Proof.
  split; [|vm_compute; reflexivity].
  eexists _, _. split; [vm_compute; reflexivity|].
  split; [vm_compute; reflexivity|].
  split; [vm_compute; reflexivity|].
  split; [vm_compute; reflexivity|].
  split; [vm_compute; discriminate | vm_compute; reflexivity].
Qed.

(** C3, as stated, fails for a width that the scratch buffer does not
    hold: on the 160-pixel panel [tft_fill_rect] with width 161, or 40000,
    stores outside the 320-byte buffer; and 2 * 40000 bytes are more than
    the [uint16_t] size of a block transfer can say. *)
Lemma tft_fill_rect_wider_than_buffer :
  tft_fill_rect 1 26 false 0 0 161 1 0xF800 example_state = Fault /\
  tft_fill_rect 1 26 false 0 0 40000 1 0xF800 example_state = Fault /\
  u16 (2 * 40000) <> 2 * 40000.
Proof.
  split; [vm_compute; reflexivity|]. split; [vm_compute; reflexivity|].
  vm_compute. discriminate.
Qed.

Lemma scratch_buffer_bound_witness :
  35 <= 160 < 2 ^ 15 /\
  wf_state 160 example_state /\
  within_contract 160 (Fill_rect 10 20 30 40 0xF800) /\
  exists st' sent,
    call 1 26 false example_font (Fill_rect 10 20 30 40 0xF800) example_state =
      Done tt st' /\
    bus st' = bus example_state ++ sent /\
    dma_transfers sent = [(60, 40)].
Proof.
  assert (H1 : 35 <= 160 < 2 ^ 15) by lia.
  assert (H2 : wf_state 160 example_state)
    by (unfold wf_state, is_u16; simpl; repeat split; lia).
  assert (H3 : within_contract 160 (Fill_rect 10 20 30 40 0xF800)) by (simpl; lia).
  do 3 (split; [assumption|]).
  destruct (scratch_buffer_bound 160 1 26 false example_font
              (Fill_rect 10 20 30 40 0xF800) example_state H1 H2 H3)
    as (_ & st' & sent & Hrun & Hbus & Hdma & _).
  exists st', sent. auto.
Defined.

Lemma tft_fill_rect_one_fill_witness :
  0 <= 30 <= 160 /\ 160 < 2 ^ 15 /\ 0 <= 40 /\
  length (buffer example_state) = Z.to_nat (buffer_capacity 160) /\
  exists st',
    tft_fill_rect 1 26 false 10 20 30 40 0xF800 example_state = Done tt st' /\
    dma_transfers (bus st') = [(60, 40)].
Proof.
  assert (H1 : 0 <= 30 <= 160) by lia.
  assert (H2 : 160 < 2 ^ 15) by lia.
  assert (H3 : 0 <= 40) by lia.
  assert (H4 : length (buffer example_state) = Z.to_nat (buffer_capacity 160))
    by reflexivity.
  do 4 (split; [assumption|]).
  destruct (tft_fill_rect_one_fill 160 1 26 false 10 20 30 40 0xF800 example_state
              H1 H2 H3 H4)
    as (st' & Hrun & _ & _ & Hbus & Hdma & _).
  exists st'. split; [exact Hrun|]. rewrite Hbus. exact Hdma.
Defined.

Lemma tft_draw_line_axis_aligned_witness :
  3 <> 9 /\
  tft_draw_line 1 26 false 0 3 5 9 5 0xF800 example_state =
  _tft_draw_fast_h_line 1 26 false 3 5 7 0xF800 example_state.
Proof.
  assert (H : 3 <> 9) by lia.
  split; [exact H|].
  destruct (tft_draw_line_axis_aligned 1 26 false 0 3 5 9 0 0xF800 example_state)
    as [_ Hh].
  destruct (Hh H) as [_ Heq]. exact Heq.
Defined.

Lemma tft_print_number_field_witness :
  length (str example_state) = 12%nat /\
  - 2 ^ 31 < 42 < 2 ^ 31 /\
  tft_print_number false example_font (-7) example_state =
  tft_print false example_font (chars "         -7")
    (set_str (chars "         -7" ++ [0]) example_state) /\
  exists field,
    strlen field = 11 /\
    tft_print_number false example_font 42 example_state =
    tft_print false example_font field (set_str (field ++ [0]) example_state).
Proof.
  assert (H : length (str example_state) = 12%nat) by reflexivity.
  assert (H42 : - 2 ^ 31 < 42 < 2 ^ 31) by lia.
  split; [exact H|]. split; [exact H42|].
  destruct (tft_print_number_field false example_font example_state H)
    as (Hm7 & _ & Hall).
  split; [exact Hm7|].
  destruct (Hall 42 H42) as (ds & _ & _ & _ & _ & _ & Hlen & Hrun).
  eexists. split; [exact Hlen | exact Hrun].
Defined.

Lemma print_cursor_frame_witness :
  70 <= Z.of_nat (length (buffer example_state)) /\
  is_u16 (_cursor_x example_state) /\
  _cursor_x example_state + 6 * strlen (chars "Hi") < 2 ^ 16 /\
  exists st',
    tft_print false example_font (chars "Hi") example_state = Done tt st' /\
    _cursor_x st' = _cursor_x example_state + 6 * strlen (chars "Hi").
Proof.
  assert (H1 : 70 <= Z.of_nat (length (buffer example_state))) by (simpl; lia).
  assert (H2 : is_u16 (_cursor_x example_state)) by (unfold is_u16; simpl; lia).
  assert (H3 : _cursor_x example_state + 6 * strlen (chars "Hi") < 2 ^ 16)
    by (vm_compute; reflexivity).
  do 3 (split; [assumption|]).
  destruct (print_cursor_frame false example_font 65 (chars "Hi") example_state H1 H2)
    as (_ & st' & Hrun & _ & Hx & _).
  exists st'. split; [exact Hrun | exact (Hx H3)].
Defined.

Lemma _tft_draw_line_pixel_count_witness :
  is_i16 2 /\ is_i16 9 /\ is_i16 5 /\ is_i16 1 /\
  major_end 2 9 5 1 < 32767 /\
  Z.of_nat (length (_tft_draw_line_points 2 9 5 1)) = 9.
Proof.
  assert (H1 : is_i16 2) by (unfold is_i16; lia).
  assert (H2 : is_i16 9) by (unfold is_i16; lia).
  assert (H3 : is_i16 5) by (unfold is_i16; lia).
  assert (H4 : is_i16 1) by (unfold is_i16; lia).
  assert (H5 : major_end 2 9 5 1 < 32767) by (vm_compute; reflexivity).
  do 5 (split; [assumption|]).
  exact (proj1 (proj2 (_tft_draw_line_pixel_count 1 26 false 2 9 5 1 0xF800
                         H1 H2 H3 H4 H5))).
Defined.

(** ** The further properties at the example configuration *)

Lemma _tft_draw_line_accuracy_witness :
  is_i16 2 /\ is_i16 9 /\ is_i16 5 /\ is_i16 1 /\
  Z.max (Z.abs (5 - 2)) (Z.abs (1 - 9)) < 2 ^ 15 /\
  major_end 2 9 5 1 < 32767 /\
  forall i p,
    _tft_draw_line_points 2 9 5 1 !! i = Some p ->
    p.1 = 1 + Z.of_nat i /\ 2 <= p.2 <= 5.
Proof.
  assert (H1 : is_i16 2) by (unfold is_i16; lia).
  assert (H2 : is_i16 9) by (unfold is_i16; lia).
  assert (H3 : is_i16 5) by (unfold is_i16; lia).
  assert (H4 : is_i16 1) by (unfold is_i16; lia).
  assert (H5 : Z.max (Z.abs (5 - 2)) (Z.abs (1 - 9)) < 2 ^ 15) by (vm_compute; reflexivity).
  assert (H6 : major_end 2 9 5 1 < 32767) by (vm_compute; reflexivity).
  do 6 (split; [assumption|]).
  intros i p Hp.
  destruct (proj2 (_tft_draw_line_accuracy 1 26 false 2 9 5 1 0xF800 H1 H2 H3 H4 H5 H6)
              i p Hp) as (Hmaj & Hmin & _).
  split; [exact Hmaj | exact Hmin].
Defined.



Lemma _tft_draw_line_never_returns_witness :
  is_i16 0 /\ is_i16 0 /\ is_i16 32767 /\ is_i16 1 /\
  major_end 0 0 32767 1 = 32767 /\
  _tft_draw_line 1 26 false 1000 0 0 32767 1 0xF800 example_state = OutOfFuel.
Proof.
  assert (H1 : is_i16 0) by (unfold is_i16; lia).
  assert (H3 : is_i16 32767) by (unfold is_i16; lia).
  assert (H4 : is_i16 1) by (unfold is_i16; lia).
  assert (H5 : major_end 0 0 32767 1 = 32767) by reflexivity.
  do 2 (split; [exact H1|]). split; [exact H3|]. split; [exact H4|]. split; [exact H5|].
  exact (_tft_draw_line_never_returns 1 26 false 1000 0 0 32767 1 0xF800 example_state
           H1 H1 H3 H4 H5).
Defined.

Lemma tft_draw_line_point_as_pixel_witness :
  2 <= Z.of_nat (length (buffer example_state)) /\
  exists st1 st2,
    tft_draw_line 1 26 false 0 5 7 5 7 0xF800 example_state = Done tt st1 /\
    tft_draw_pixel 1 26 false (u16 5) (u16 7) 0xF800 example_state = Done tt st2.
Proof.
  assert (H : 2 <= Z.of_nat (length (buffer example_state))) by (simpl; lia).
  split; [exact H|].
  destruct (tft_draw_line_point_as_pixel 1 26 false 0 5 7 0xF800 false example_state H)
    as (st1 & st2 & _ & _ & Hline & _ & Hpixel & _).
  exists st1, st2. split; [exact Hline | exact Hpixel].
Defined.

Lemma _tft_draw_fast_v_line_as_fill_rect_witness :
  1 <= 3 /\ 2 * 3 <= Z.of_nat (length (buffer example_state)) /\ 2 * 3 < 2 ^ 16 /\
  exists st1 st2,
    _tft_draw_fast_v_line 1 26 false 5 7 3 0xF800 example_state = Done tt st1 /\
    tft_fill_rect 1 26 false (u16 5) (u16 7) 1 3 0xF800 example_state = Done tt st2.
Proof.
  assert (H1 : 1 <= 3) by lia.
  assert (H2 : 2 * 3 <= Z.of_nat (length (buffer example_state))) by (simpl; lia).
  assert (H3 : 2 * 3 < 2 ^ 16) by lia.
  do 3 (split; [assumption|]).
  destruct (_tft_draw_fast_v_line_as_fill_rect 1 26 false 5 7 3 0xF800 false
              example_state H1 H2 H3)
    as (st1 & st2 & _ & _ & Hline & _ & Hrect & _).
  exists st1, st2. split; [exact Hline | exact Hrect].
Defined.


Lemma tft_draw_bitmap_transfer_witness :
  0 <= 2 /\ 0 <= 2 /\ 2 * 2 < 2 ^ 30 /\
  exists st',
    tft_draw_bitmap 1 26 false 5 7 2 2 [1; 2; 3; 4; 5; 6; 7; 8] example_state =
      Done tt st' /\
    buffer st' = buffer example_state.
Proof.
  assert (H1 : 0 <= 2) by lia.
  assert (H3 : 2 * 2 < 2 ^ 30) by lia.
  do 2 (split; [exact H1|]). split; [exact H3|].
  eexists.
  split; [exact (proj1 (tft_draw_bitmap_transfer 1 26 false 5 7 2 2
                          [1; 2; 3; 4; 5; 6; 7; 8] false example_state H1 H1 H3))|].
  reflexivity.
Defined.

Lemma tft_draw_rect_edges_witness :
  0 <= 30 < 2 ^ 15 /\ 0 <= 15 < 2 ^ 15 /\
  2 * 30 <= Z.of_nat (length (buffer example_state)) /\
  2 * 15 <= Z.of_nat (length (buffer example_state)) /\
  exists st',
    tft_draw_rect 1 26 false 10 20 30 15 0xF800 example_state = Done tt st' /\
    length (buffer st') = length (buffer example_state).
Proof.
  assert (H1 : 0 <= 30 < 2 ^ 15) by lia.
  assert (H2 : 0 <= 15 < 2 ^ 15) by lia.
  assert (H3 : 2 * 30 <= Z.of_nat (length (buffer example_state))) by (simpl; lia).
  assert (H4 : 2 * 15 <= Z.of_nat (length (buffer example_state))) by (simpl; lia).
  do 4 (split; [assumption|]).
  destruct (tft_draw_rect_edges 1 26 false 10 20 30 15 0xF800 example_state H1 H2 H3 H4)
    as (st' & Hrun & _ & Hlen & _).
  exists st'. split; [exact Hrun | exact Hlen].
Defined.

Lemma tft_print_layout_witness :
  70 <= Z.of_nat (length (buffer example_state)) /\
  is_u16 (_cursor_x example_state) /\
  exists st',
    tft_print false example_font (chars "Hi") example_state = Done tt st' /\
    _cursor_x st' = u16 (0 + 6 * 2).
Proof.
  assert (H1 : 70 <= Z.of_nat (length (buffer example_state))) by (simpl; lia).
  assert (H2 : is_u16 (_cursor_x example_state)) by (unfold is_u16; simpl; lia).
  do 2 (split; [assumption|]).
  destruct (tft_print_layout false example_font (chars "Hi") example_state H1 H2)
    as (st' & Hrun & _ & Hx).
  exists st'. split; [exact Hrun | exact Hx].
Defined.

Lemma tft_print_char_pixels_witness :
  70 <= Z.of_nat (length (buffer example_state)) /\
  0 <= 0 < 7 /\ 0 <= 1 < 5 /\
  exists st',
    tft_print_char false example_font 65 example_state = Done tt st' /\
    buffer st' !! 2%nat = Some 0 /\ buffer st' !! 3%nat = Some 0.
Proof.
  assert (H1 : 70 <= Z.of_nat (length (buffer example_state))) by (simpl; lia).
  assert (H2 : 0 <= 0 < 7) by lia.
  assert (H3 : 0 <= 1 < 5) by lia.
  do 3 (split; [assumption|]).
  destruct (tft_print_char_pixels false example_font 65 0 1 example_state H1 H2 H3)
    as (st' & sent & Hrun & Hhi & Hlo & _).
  exists st'. split; [exact Hrun|]. split; [exact Hhi | exact Hlo].
Defined.

Lemma setters_then_print_char_witness :
  70 <= Z.of_nat (length (buffer example_state)) /\
  exists st0 st',
    (tft_set_cursor 1 26 0 10;; tft_set_color 0x07E0;;
     tft_set_background_color 0x001F) example_state = Done tt st0 /\
    tft_print_char false example_font 65 st0 = Done tt st' /\
    (_cursor_x st', _cursor_y st', _color st', _bg_color st') = (1, 36, 0x07E0, 0x001F).
Proof.
  assert (H : 70 <= Z.of_nat (length (buffer example_state))) by (simpl; lia).
  split; [exact H|].
  destruct (setters_then_print_char 1 26 false example_font 0 10 0x07E0 0x001F 65
              example_state H)
    as (st0 & st' & Hset & _ & _ & _ & Hrun & _ & Hdisp).
  exists st0, st'. split; [exact Hset|]. split; [exact Hrun | exact Hdisp].
Defined.

Lemma call_keeps_state_witness :
  35 <= 160 < 2 ^ 15 /\
  wf_state 160 example_state /\
  within_contract 160 (Draw_rect 10 20 30 15 0xF800) /\
  exists st',
    call 1 26 false example_font (Draw_rect 10 20 30 15 0xF800) example_state =
      Done tt st' /\
    wf_state 160 st'.
Proof.
  assert (H1 : 35 <= 160 < 2 ^ 15) by lia.
  assert (H2 : wf_state 160 example_state)
    by (unfold wf_state, is_u16; simpl; repeat split; lia).
  assert (H3 : within_contract 160 (Draw_rect 10 20 30 15 0xF800)) by (simpl; lia).
  do 3 (split; [assumption|]).
  destruct (call_keeps_state 160 1 26 false example_font
              (Draw_rect 10 20 30 15 0xF800) example_state H1 H2 H3)
    as (st' & Hrun & Hwf & _).
  exists st'. split; [exact Hrun | exact Hwf].
Defined.

Lemma calls_never_fault_witness :
  35 <= 160 < 2 ^ 15 /\
  wf_state 160 example_state /\
  Forall (within_contract 160)
    [Fill_rect 0 0 160 80 0x0000; Print (chars "Hi"); Print_number (-7)] /\
  exists st',
    calls 1 26 false example_font
      [Fill_rect 0 0 160 80 0x0000; Print (chars "Hi"); Print_number (-7)]
      example_state = Done tt st' /\
    wf_state 160 st'.
Proof.
  assert (H1 : 35 <= 160 < 2 ^ 15) by lia.
  assert (H2 : wf_state 160 example_state)
    by (unfold wf_state, is_u16; simpl; repeat split; lia).
  assert (H3 : Forall (within_contract 160)
                 [Fill_rect 0 0 160 80 0x0000; Print (chars "Hi"); Print_number (-7)])
    by (repeat constructor; simpl; lia).
  do 3 (split; [assumption|]).
  destruct (calls_never_fault 160 1 26 false example_font _ example_state H1 H2 H3)
    as (st' & Hrun & Hwf & _).
  exists st'. split; [exact Hrun | exact Hwf].
Defined.

Lemma tft_print_number_advance_witness :
  - 2 ^ 31 < 42 < 2 ^ 31 /\
  length (str example_state) = 12%nat /\
  70 <= Z.of_nat (length (buffer example_state)) /\
  is_u16 (_cursor_x example_state) /\
  exists st',
    tft_print_number false example_font 42 example_state = Done tt st' /\
    _cursor_x st' = u16 (0 + 66).
Proof.
  assert (H1 : - 2 ^ 31 < 42 < 2 ^ 31) by lia.
  assert (H2 : length (str example_state) = 12%nat) by reflexivity.
  assert (H3 : 70 <= Z.of_nat (length (buffer example_state))) by (simpl; lia).
  assert (H4 : is_u16 (_cursor_x example_state)) by (unfold is_u16; simpl; lia).
  do 4 (split; [assumption|]).
  destruct (tft_print_number_advance false example_font 42 example_state H1 H2 H3 H4)
    as (st' & field & sent & Hrun & Hx & _).
  exists st'. split; [exact Hrun | exact Hx].
Defined.
